(** * Lead-generation backend: the post-interaction scoring pipeline

    A shallow embedding of the request handlers, the AI analysis service
    and the campaign repository, with the properties of the pipeline
    proved over it.

    - [Py]                : Python values, truthiness, exceptions
    - [AIAnalysisService] : services/ai_analysis_service.py
    - [Webhooks]          : the two webhook handlers (api/apify.py, api/analysis.py)
    - [LinkedInPost], [PostInteraction] : models/post_analysis.py
    - [AnalysisApi]       : start_analysis and get_analysis_results (api/analysis.py)
    - [Campaign], [CampaignRepo] : repositories/campaign_repo.py
    - [ApifyApi]          : trigger_scrape (api/apify.py)
    - [User], [UsersApi]  : api/users.py
    - [Concrete], [Samples] : a runtime, an engine and data to run the above

    The definitions come first; the properties follow from [Properties] on. *)

From Stdlib Require Import ZArith QArith String Ascii Sorted.
From Stdlib Require Import Floats.SpecFloat.
From stdpp Require Import gmap strings list sorting pretty.

Local Set Warnings "-register-all".
Local Open Scope Z_scope.
Local Open Scope string_scope.

(** ** Python values and control flow *)

Module Py.

(** A value as [json.loads] produces it, which is also what a handler
    receives from [request.json()]. Strings are sequences of characters;
    a dict is a finite map from its keys. *)
Inductive pyval : Type :=
| PyNone
| PyBool (b : bool)
| PyInt (n : Z)
| PyFloat (f : spec_float)
| PyStr (s : string)
| PyList (l : list pyval)
| PyDict (d : gmap string pyval).

(** Python's truth value of an object, as [if x:] and [x and y] test it. *)
Definition truthy (v : pyval) : bool :=
  match v with
  | PyNone => false
  | PyBool b => b
  | PyInt n => negb (Z.eqb n 0)
  | PyFloat (S754_zero _) => false
  | PyFloat _ => true
  | PyStr s => negb (String.eqb s EmptyString)
  | PyList l => negb (Nat.eqb (length l) 0)
  | PyDict d => negb (Nat.eqb (size d) 0)
  end.

(** The truth value of a [str]: false exactly for the empty string. *)
Definition str_truthy (s : string) : bool := negb (String.eqb s EmptyString).

(** The truth value of an [Optional[str]]. *)
Definition opt_str_truthy (o : option string) : bool :=
  match o with
  | None => false
  | Some s => str_truthy s
  end.

(** [v == s] for a string literal [s]. *)
Definition eq_str (v : pyval) (s : string) : bool :=
  match v with
  | PyStr t => String.eqb t s
  | _ => false
  end.

(** Exceptions. [HTTPException] is a subclass of [Exception], so an
    [except Exception] clause catches both constructors. What is raised
    outside the [Exception] hierarchy (an interrupt, the cancellation of a
    task) is not modelled. *)
Inductive exn : Type :=
| PyExc (cls : string) (message : string)
| HTTPException (status_code : Z) (detail : string).

(** [str(e)]; for an [HTTPException] the status code and the detail. *)
Definition exn_str (e : exn) : string :=
  match e with
  | PyExc _ m => m
  | HTTPException c d => pretty c ++ ": " ++ d
  end.

(** The result of running a piece of Python: a value or a raised exception. *)
Inductive outcome (A : Type) : Type :=
| Return (a : A)
| Raise (e : exn).
Arguments Return {A} a.
Arguments Raise {A} e.

Definition bind {A B} (m : outcome A) (k : A -> outcome B) : outcome B :=
  match m with
  | Return a => k a
  | Raise e => Raise e
  end.

(** [try: body / except Exception as e: handler e]. *)
Definition try_except {A} (body : outcome A) (handler : exn -> outcome A) : outcome A :=
  match body with
  | Return a => Return a
  | Raise e => handler e
  end.

Definition returns {A} (m : outcome A) : Prop := exists a, m = Return a.

(** [obj.get(key, default)]: defined on dicts only; on any other value the
    attribute lookup raises [AttributeError]. *)
Definition get (obj : pyval) (key : string) (dflt : pyval) : outcome pyval :=
  match obj with
  | PyDict d => Return (default dflt (d !! key))
  | _ => Raise (PyExc "AttributeError" "object has no attribute 'get'")
  end.

(** [needle in hay] on strings: [needle] occurs as a contiguous substring. *)
Fixpoint str_in (needle hay : string) : bool :=
  String.prefix needle hay ||
  match hay with
  | EmptyString => false
  | String _ rest => str_in needle rest
  end.

(** What [needle in hay] means: [hay] is [needle] with something before
    and something after. *)
Definition contains (needle hay : string) : Prop :=
  exists before after, hay = before ++ needle ++ after.

(** [any(x in hay for x in needles)]. *)
Definition any_in (needles : list string) (hay : string) : bool :=
  existsb (fun x => str_in x hay) needles.

(** [s[:n]]. *)
Fixpoint str_take (n : nat) (s : string) : string :=
  match n, s with
  | O, _ => EmptyString
  | S _, EmptyString => EmptyString
  | S k, String c rest => String c (str_take k rest)
  end.

(** A UUID, by its 128-bit integer value. *)
Abbreviation UUID := N.

(** The library functions the code calls whose results depend on tables or
    grammars outside the repository. Every theorem below holds for each
    implementation of this interface. *)
Class Runtime : Type := {
  (** [str.lower] *)
  str_lower : string -> string;
  (** the text an f-string substitutes for [{value}] *)
  format_value : pyval -> string;
  (** [json.loads] *)
  json_loads : string -> outcome pyval;
  (** [uuid.UUID(s)], raising [ValueError] on a malformed string *)
  uuid_parse : string -> outcome UUID;
  (** [str(u)] for a UUID *)
  uuid_str : UUID -> string;
  (** [datetime.isoformat] *)
  isoformat : Z -> string
}.

Declare Scope py_scope.
Delimit Scope py_scope with py.
Notation "x <- m ;; k" := (bind m (fun x => k))
  (at level 100, m at next level, right associativity) : py_scope.


(** Code that also reads and writes a store of type [S]: the store is
    threaded through, and what was written before an exception stays. *)
Definition stateful (S A : Type) : Type := S -> outcome A * S.

Definition sret {S A} (a : A) : stateful S A := fun s => (Return a, s).

Definition sraise {S A} (e : exn) : stateful S A := fun s => (Raise e, s).

Definition sbind {S A B} (m : stateful S A) (k : A -> stateful S B) : stateful S B :=
  fun s =>
    match m s with
    | (Return a, s') => k a s'
    | (Raise e, s') => (Raise e, s')
    end.

(** A computation that does not touch the store. *)
Definition lift {S A} (m : outcome A) : stateful S A := fun s => (m, s).

(** [try: body / except Exception as e: handler e] over a store. *)
Definition stry {S A} (body : stateful S A) (handler : exn -> stateful S A) : stateful S A :=
  fun s =>
    match body s with
    | (Return a, s') => (Return a, s')
    | (Raise e, s') => handler e s'
    end.

Notation "x <-- m ;; k" := (sbind m (fun x => k))
  (at level 100, m at next level, right associativity) : py_scope.

End Py.

Import Py.

(** ** services/ai_analysis_service.py *)

Module AIAnalysisService.

Local Open Scope py_scope.

(** One entry of the [messages] argument. *)
Record Message : Type := { role : string; content : string }.

(** The keyword arguments of [client.chat.completions.create]. *)
Record ChatRequest : Type := {
  model : string;
  messages : list Message;
  response_format : string;
  temperature : Q
}.

(** What the attribute path [response.choices[i].message.content] reads:
    the response is its list of choices, each with an optional content. *)
Definition ChatResponse : Type := list (option string).

(** The OpenAI client: the hosted model is an oracle that answers a
    request or raises. *)
Record Client : Type := {
  chat_completions_create : ChatRequest -> outcome ChatResponse
}.

(** The service object: [self.client] and [self.model]. *)
Record t : Type := { client : option Client; ai_model : string }.

(** [__init__]: a client is built only for a non-empty API key. *)
Definition init (OpenAI : string -> Client) (OPENAI_API_KEY : option string)
    (AI_MODEL : string) : t :=
  {| client := match OPENAI_API_KEY with
               | Some key => if str_truthy key then Some (OpenAI key) else None
               | None => None
               end;
     ai_model := AI_MODEL |}.

Definition nl : string := String "010"%char EmptyString.
Definition dq : string := String "034"%char EmptyString.
(** [s] between double quotes. *)
Definition quoted (s : string) : string := dq ++ s ++ dq.

(** [response.choices[0].message.content] *)
Definition first_choice_content (response : ChatResponse) : outcome (option string) :=
  match response with
  | [] => Raise (PyExc "IndexError" "list index out of range")
  | c :: _ => Return c
  end.

(** [json.loads(content)]; [json.loads(None)] raises [TypeError]. *)
Definition loads_content `{Runtime} (c : option string) : outcome pyval :=
  match c with
  | None => Raise (PyExc "TypeError" "the JSON object must be str, bytes or bytearray, not NoneType")
  | Some s => json_loads s
  end.

(** The keyword arguments both methods pass, up to the prompt and the
    temperature. *)
Definition chat_request (self : t) (prompt : string) (temp : Q) : ChatRequest :=
  {| model := ai_model self;
     messages := [ {| role := "user"; content := prompt |} ];
     response_format := "json_object";
     temperature := temp |}.

(** [result = json.loads(response.choices[0].message.content)] *)
Definition parse_response `{Runtime} (response : ChatResponse) : outcome pyval :=
  content <- first_choice_content response ;;
  result <- loads_content content ;;
  Return result.

(** The body of both [try] blocks: call the model, parse its first choice. *)
Definition ask `{Runtime} (c : Client) (self : t) (prompt : string) (temp : Q) : outcome pyval :=
  response <- chat_completions_create c (chat_request self prompt temp) ;;
  parse_response response.

Definition dict (kvs : list (string * pyval)) : pyval := PyDict (list_to_map kvs).

Definition post_prompt (post_text customer_product : string) : string :=
  "Analyze this LinkedIn post and return a JSON response:" ++ nl ++ nl ++
  "Post: " ++ quoted post_text ++ nl ++
  "Customer Product/Service: " ++
    quoted (if str_truthy customer_product then customer_product else "General B2B SaaS") ++ nl ++ nl ++
  "Return JSON with:" ++ nl ++
  "- intent: one of [problem, solution_seeking, discussion, success_story, promotion, question]" ++ nl ++
  "- topics: list of 3-5 main topics/keywords" ++ nl ++
  "- relevance_score: 0-100 how relevant to customer's product" ++ nl ++
  "- summary: one-line summary" ++ nl ++ nl ++
  "Example: {" ++ quoted "intent" ++ ": " ++ quoted "problem" ++ ", " ++
    quoted "topics" ++ ": [" ++ quoted "CRM" ++ ", " ++ quoted "sales automation" ++ "], " ++
    quoted "relevance_score" ++ ": 85, " ++
    quoted "summary" ++ ": " ++ quoted "User seeking CRM recommendations" ++ "}" ++ nl.

Definition analyze_post_content `{Runtime} (self : t) (post_text customer_product : string)
    : outcome pyval :=
  match client self with
  | None =>
      Return (dict [("intent", PyStr "unknown"); ("topics", PyList []);
                    ("relevance_score", PyInt 50)])
  | Some c =>
      let prompt := post_prompt post_text customer_product in
      try_except (ask c self prompt (3 # 10))
        (fun e =>
           Return (dict [("intent", PyStr "unknown"); ("topics", PyList []);
                         ("relevance_score", PyInt 50); ("summary", PyStr EmptyString)]))
  end.

(** Simple rule-based fallback if AI fails. *)
Definition _fallback_evaluation `{Runtime} (headline : string) : pyval :=
  let seniority :=
    if any_in ["CEO"; "Founder"; "President"] headline then "C-level"
    else if any_in ["VP"; "Vice President"] headline then "VP"
    else if str_in "Director" headline then "Director"
    else if str_in "Manager" headline then "Manager"
    else "IC" in
  let excluded := any_in ["student"; "recruiter"; "intern"] (str_lower headline) in
  dict [
    ("profile_type",
       PyStr (if str_in "Company" headline || str_in "Ltd" headline
              then "company" else "individual"));
    ("role_category", PyStr (if excluded then "irrelevant" else "influencer"));
    ("seniority_level", PyStr seniority);
    ("industry_match", PyBool false);
    ("intent_from_comment", PyStr "medium");
    ("persona_fit_score", PyInt (if excluded then 0 else 50));
    ("reasoning", PyStr "Fallback evaluation (AI unavailable)")
  ].

Definition profile_prompt `{Runtime} (name headline comment_text : string)
    (persona_definition : gmap string pyval) : string :=
  let field k := format_value (default (PyList []) (persona_definition !! k)) in
  "Evaluate this LinkedIn profile interaction:" ++ nl ++ nl ++
  "Name: " ++ name ++ nl ++
  "Headline: " ++ headline ++ nl ++
  "Their Comment: " ++ quoted comment_text ++ nl ++ nl ++
  "Target Persona:" ++ nl ++
  "- Industries: " ++ field "industries" ++ nl ++
  "- Job Titles: " ++ field "job_titles" ++ nl ++
  "- Seniority: " ++ field "seniority" ++ nl ++ nl ++
  "Return JSON with:" ++ nl ++
  "- profile_type: " ++ quoted "individual" ++ " or " ++ quoted "company" ++ nl ++
  "- role_category: e.g., " ++ quoted "decision_maker" ++ ", " ++ quoted "influencer" ++ ", " ++
    quoted "end_user" ++ ", " ++ quoted "irrelevant" ++ nl ++
  "- seniority_level: " ++ quoted "C-level" ++ ", " ++ quoted "VP" ++ ", " ++ quoted "Director" ++ ", " ++
    quoted "Manager" ++ ", " ++ quoted "IC" ++ ", " ++ quoted "Student" ++ nl ++
  "- industry_match: true/false" ++ nl ++
  "- intent_from_comment: " ++ quoted "high" ++ " (asking, seeking solution), " ++
    quoted "medium" ++ " (sharing opinion), " ++ quoted "low" ++ " (general engagement)" ++ nl ++
  "- persona_fit_score: 0-100" ++ nl ++
  "- reasoning: brief explanation" ++ nl ++ nl ++
  "Example: {" ++ quoted "profile_type" ++ ": " ++ quoted "individual" ++ ", " ++
    quoted "role_category" ++ ": " ++ quoted "decision_maker" ++ ", " ++
    quoted "seniority_level" ++ ": " ++ quoted "VP" ++ ", " ++
    quoted "industry_match" ++ ": true, " ++
    quoted "intent_from_comment" ++ ": " ++ quoted "high" ++ ", " ++
    quoted "persona_fit_score" ++ ": 92, " ++
    quoted "reasoning" ++ ": " ++ quoted "VP Sales in SaaS, actively seeking solutions" ++ "}" ++ nl.

Definition evaluate_profile `{Runtime} (self : t) (name headline comment_text : string)
    (persona_definition : gmap string pyval) : outcome pyval :=
  match client self with
  | None => Return (_fallback_evaluation headline)
  | Some c =>
      let prompt := profile_prompt name headline comment_text persona_definition in
      try_except (ask c self prompt (2 # 10))
        (fun e => Return (_fallback_evaluation headline))
  end.

(** [result[key]] of a returned dict, when there is one. *)
Definition field_of (result : pyval) (key : string) : option pyval :=
  match result with
  | PyDict d => d !! key
  | _ => None
  end.



(** A result that says nothing: intent unknown, no topics, score 50. *)
Definition unknown_analysis (r : pyval) : Prop :=
  field_of r "intent" = Some (PyStr "unknown") /\
  field_of r "topics" = Some (PyList []) /\
  field_of r "relevance_score" = Some (PyInt 50).

(** A client whose every call fails. *)
Definition failing_client : Client :=
  {| chat_completions_create := fun _ => Raise (PyExc "APIConnectionError" "Connection error.") |}.

(** A client that answers every request with the one content [s]. *)
Definition constant_client (s : option string) : Client :=
  {| chat_completions_create := fun _ => Return [s] |}.


(** Three services: without an API key, with a model that cannot be
    reached, and with a model that answers something that is not JSON. *)
Definition unconfigured : t := {| client := None; ai_model := "gpt-4o-mini" |}.



End AIAnalysisService.

(** ** The webhook handlers of api/apify.py and api/analysis.py *)

Module Webhooks.

Local Open Scope py_scope.

(** A call handed to [background_tasks.add_task]: the function and its
    positional arguments. *)
Record Task : Type := { func : string; args : list pyval }.

(** The [BackgroundTasks] object of one request: the tasks to run once the
    response is sent, in the order they were added. *)
Definition BackgroundTasks : Type := list Task.

Definition add_task (background_tasks : BackgroundTasks) (f : string) (a : list pyval)
    : BackgroundTasks :=
  (background_tasks ++ [ {| func := f; args := a |} ])%list.

Definition received : pyval := PyDict {[ "status" := PyStr "received" ]}.

(** The four reads both handlers start with; each [.get] can raise. *)
Definition read_payload (payload : pyval) : outcome (pyval * pyval * pyval) :=
  event_type <- get payload "eventType" PyNone ;;
  resource <- get payload "resource" (PyDict ∅) ;;
  run_id <- get resource "id" PyNone ;;
  dataset_id <- get resource "defaultDatasetId" PyNone ;;
  Return (event_type, run_id, dataset_id).

(** [event_type == "ACTOR.RUN.SUCCEEDED" and dataset_id], as a condition. *)
Definition run_succeeded (event_type dataset_id : pyval) : bool :=
  eq_str event_type "ACTOR.RUN.SUCCEEDED" && truthy dataset_id.

(** api/apify.py: the handler gets the parsed body and the request's
    [BackgroundTasks]; it returns its response, or raises, and leaves the
    tasks it added. *)
Definition apify_webhook (payload : pyval) (background_tasks : BackgroundTasks)
    : outcome pyval * BackgroundTasks :=
  match read_payload payload with
  | Raise e => (Raise e, background_tasks)
  | Return (event_type, run_id, dataset_id) =>
      let background_tasks :=
        if run_succeeded event_type dataset_id
        then add_task background_tasks "process_apify_dataset" [dataset_id; run_id]
        else background_tasks in
      (Return received, background_tasks)
  end.

(** api/analysis.py *)
Definition analysis_webhook (payload : pyval) (background_tasks : BackgroundTasks)
    : outcome pyval * BackgroundTasks :=
  match read_payload payload with
  | Raise e => (Raise e, background_tasks)
  | Return (event_type, run_id, dataset_id) =>
      let background_tasks :=
        if run_succeeded event_type dataset_id
        then add_task background_tasks "analysis_service.process_webhook" [dataset_id; run_id]
        else background_tasks in
      (Return received, background_tasks)
  end.

(** The server receives the deliveries one after the other, each with a
    fresh [BackgroundTasks]; this is every task scheduled along the way. *)
Definition deliver (handler : pyval -> BackgroundTasks -> outcome pyval * BackgroundTasks)
    (payloads : list pyval) : list Task :=
  flat_map (fun payload => snd (handler payload [])) payloads.

(** [payload["resource"]["defaultDatasetId"]], when both keys are there. *)
Definition default_dataset_id (payload : pyval) : option pyval :=
  match payload with
  | PyDict d =>
      match d !! "resource" with
      | Some (PyDict r) => r !! "defaultDatasetId"
      | _ => None
      end
  | _ => None
  end.

(** [payload["eventType"]], when the key is there. *)
Definition event_type_of (payload : pyval) : option pyval :=
  match payload with
  | PyDict d => d !! "eventType"
  | _ => None
  end.

(** The payloads on which no [.get] fails: an object whose ["resource"],
    if it has one, is an object too. *)
Definition well_shaped (payload : pyval) : bool :=
  match payload with
  | PyDict d =>
      match d !! "resource" with
      | None | Some (PyDict _) => true
      | Some _ => false
      end
  | _ => false
  end.


(** [payload["resource"]["id"]], or [None] when one of the keys is not there. *)
Definition run_id_of (payload : pyval) : pyval :=
  match payload with
  | PyDict d =>
      match d !! "resource" with
      | Some (PyDict r) => default PyNone (r !! "id")
      | _ => PyNone
      end
  | _ => PyNone
  end.

(** The payloads for which a handler adds a task. *)
Definition schedules (payload : pyval) : bool :=
  well_shaped payload &&
  run_succeeded (default PyNone (event_type_of payload))
                (default PyNone (default_dataset_id payload)).

(** Three bodies a caller can post: a run that succeeded, one whose
    ["resource"] is [null], and a success whose dataset id is the empty
    string. *)
Definition succeeded_run : pyval :=
  PyDict (<[ "eventType" := PyStr "ACTOR.RUN.SUCCEEDED" ]>
          {[ "resource" := PyDict (<[ "id" := PyStr "run-1" ]>
                                   {[ "defaultDatasetId" := PyStr "dataset-1" ]}) ]}).

Definition null_resource : pyval :=
  PyDict (<[ "eventType" := PyStr "ACTOR.RUN.SUCCEEDED" ]> {[ "resource" := PyNone ]}).

Definition empty_dataset_id : pyval :=
  PyDict (<[ "eventType" := PyStr "ACTOR.RUN.SUCCEEDED" ]>
          {[ "resource" := PyDict {[ "defaultDatasetId" := PyStr EmptyString ]} ]}).

End Webhooks.

(** ** models/post_analysis.py *)

Module LinkedInPost.

(** A LinkedIn post being tracked and analyzed. Timestamps are instants on
    the integer time line. *)
Record t : Type := {
  id : UUID;
  post_url : string;
  author_name : option string;
  post_content : option string;
  posted_at : option Z;
  status : string;
  apify_run_id : option string;
  post_intent : option string;
  total_comments : Z;
  total_likes : Z;
  ai_insights : pyval;
  org_id : UUID;
  persona_id : option UUID;
  created_at : Z;
  updated_at : Z
}.

End LinkedInPost.

Module PostInteraction.

(** An interaction (Like/Comment) on a tracked post. *)
Record t : Type := {
  id : UUID;
  post_id : UUID;
  type : string;
  content : option string;
  reacted_at : option Z;
  actor_name : option string;
  actor_profile_url : option string;
  actor_headline : option string;
  actor_urn : option string;
  relevance_score : Z;
  classification : string;
  profile_type : option string;
  seniority_level : option string;
  role_category : option string;
  ai_insights : pyval;
  lead_id : option UUID
}.

End PostInteraction.

(** ** api/analysis.py: start_analysis and get_analysis_results *)

Module Lead.

(** Modelled from the spec: the [Lead] entity (backend/models/lead.py),
    one of the ORM-mapped entities; the handler reads its primary key only. *)
Record t : Type := { id : UUID }.

End Lead.

(** What the handlers need of the relational engine: [ORDER BY key DESC]
    returns the rows it is given, largest key first. The order among rows
    of equal key is the engine's choice. *)
Class SqlEngine : Type := {
  order_by_desc : forall {A : Type}, (A -> Z) -> list A -> list A;
  order_by_desc_sorted : forall (A : Type) (key : A -> Z) (rows : list A),
    StronglySorted (fun x y => key y <= key x) (order_by_desc key rows);
  order_by_desc_perm : forall (A : Type) (key : A -> Z) (rows : list A),
    order_by_desc key rows ≡ₚ rows
}.

Module AnalysisApi.

Local Open Scope py_scope.

Record AnalyzeRequest : Type := {
  post_urls : list string;
  org_id : string;
  persona_id : option string
}.

(** The body [{"status": "started", "count": ..., "ids": ...}]. *)
Record Started : Type := { status : string; count : nat; ids : list string }.

(** [analysis_service] (backend/services/analysis_service.py), as the
    handlers know it: an object with a state of its own and the one method
    [start_analysis] awaits, which returns the started ids or raises. *)
Record AnalysisService (S : Type) : Type := {
  analyze_posts : list string -> UUID -> option UUID -> stateful S (list string)
}.
Arguments analyze_posts {S} _ _ _ _ _.

(** The service's state, and the calls of [analyze_posts] made so far. *)
Record World (S : Type) : Type := {
  service_state : S;
  analyses_started : list (list string * UUID * option UUID)
}.
Arguments service_state {S} _.
Arguments analyses_started {S} _.

(** The call [await analysis_service.analyze_posts(urls, org, persona)]. *)
Definition call_analyze_posts {S} (svc : AnalysisService S) (urls : list string)
    (org : UUID) (persona : option UUID) : stateful (World S) (list string) :=
  fun w =>
    let '(r, s') := analyze_posts svc urls org persona (service_state w) in
    (r, {| service_state := s';
           analyses_started := (analyses_started w ++ [(urls, org, persona)])%list |}).

(** [uuid.UUID(request.persona_id) if request.persona_id else None] *)
Definition parse_persona `{Runtime} (persona_id : option string) : outcome (option UUID) :=
  match persona_id with
  | Some p => if str_truthy p then (u <- uuid_parse p ;; Return (Some u)) else Return None
  | None => Return None
  end.

Definition start_analysis `{Runtime} {S} (svc : AnalysisService S) (request : AnalyzeRequest)
    : stateful (World S) Started :=
  if (10 <? length (post_urls request))%nat
  then sraise (HTTPException 400 "Max 10 URLs allowed per batch")
  else
    stry
      (org_uuid <-- lift (uuid_parse (org_id request)) ;;
       persona_uuid <-- lift (parse_persona (persona_id request)) ;;
       started_ids <-- call_analyze_posts svc (post_urls request) org_uuid persona_uuid ;;
       sret {| status := "started"; count := length started_ids; ids := started_ids |})
      (fun e => sraise (HTTPException 500 (exn_str e))).

(** The three tables the results handler reads. *)
Record Database : Type := {
  linkedin_post : list LinkedInPost.t;
  post_interaction : list PostInteraction.t;
  lead : list Lead.t
}.

(** [LIMIT n]: PostgreSQL rejects a negative count. *)
Definition sql_limit {A} (n : Z) (rows : list A) : outcome (list A) :=
  if (n <? 0)%Z then Raise (PyExc "DBAPIError" "LIMIT must not be negative")
  else Return (take (Z.to_nat n) rows).

(** The statement built for the posts: the organization's rows, those of
    the given status when [status] is truthy, newest first, then the limit. *)
Definition select_posts `{SqlEngine} (db : Database) (org_uuid : UUID) (limit : Z)
    (status : option string) : outcome (list LinkedInPost.t) :=
  let rows := filter (fun p => LinkedInPost.org_id p = org_uuid) (linkedin_post db) in
  let rows :=
    match status with
    | Some s => if str_truthy s then filter (fun p => LinkedInPost.status p = s) rows else rows
    | None => rows
    end in
  sql_limit limit (order_by_desc LinkedInPost.created_at rows).

(** The statement built for one post's interactions. *)
Definition select_interactions `{SqlEngine} (db : Database) (post_id : UUID)
    : list PostInteraction.t :=
  order_by_desc PostInteraction.relevance_score
    (filter (fun i => PostInteraction.post_id i = post_id) (post_interaction db)).

(** [select(Lead).where(Lead.id.in_(lead_ids))] *)
Definition select_leads (db : Database) (lead_ids : list UUID) : list Lead.t :=
  filter (fun l => Lead.id l ∈ lead_ids) (lead db).


(** The ["post"] entry of a result. *)
Record PostView : Type := {
  pv_id : string;
  pv_url : string;
  pv_content : string;
  pv_author : option string;
  pv_status : string;
  pv_intent : option string;
  pv_ai_insights : pyval;
  pv_total_comments : Z;
  pv_total_likes : Z;
  pv_created_at : option string
}.

(** One entry of the ["interactions"] list of a result. *)
Record InteractionView : Type := {
  iv_id : string;
  iv_type : string;
  iv_actor_name : option string;
  iv_actor_headline : option string;
  iv_classification : string;
  iv_score : Z;
  iv_profile_type : option string;
  iv_seniority : option string;
  iv_lead_id : option string
}.

(** One entry of ["results"]. *)
Record ResultItem : Type := {
  post : PostView;
  interactions : list InteractionView;
  leads_created : nat;
  high_value_count : nat
}.

(** The body [{"total": ..., "results": ...}]. *)
Record Results : Type := { total : nat; results : list ResultItem }.

Definition post_view `{Runtime} (post : LinkedInPost.t) : PostView :=
  {| pv_id := uuid_str (LinkedInPost.id post);
     pv_url := LinkedInPost.post_url post;
     pv_content :=
       match LinkedInPost.post_content post with
       | Some c => if str_truthy c then str_take 200 c else EmptyString
       | None => EmptyString
       end;
     pv_author := LinkedInPost.author_name post;
     pv_status := LinkedInPost.status post;
     pv_intent := LinkedInPost.post_intent post;
     pv_ai_insights := LinkedInPost.ai_insights post;
     pv_total_comments := LinkedInPost.total_comments post;
     pv_total_likes := LinkedInPost.total_likes post;
     (* a datetime is always truthy *)
     pv_created_at := Some (isoformat (LinkedInPost.created_at post)) |}.

Definition interaction_view `{Runtime} (i : PostInteraction.t) : InteractionView :=
  {| iv_id := uuid_str (PostInteraction.id i);
     iv_type := PostInteraction.type i;
     iv_actor_name := PostInteraction.actor_name i;
     iv_actor_headline := PostInteraction.actor_headline i;
     iv_classification := PostInteraction.classification i;
     iv_score := PostInteraction.relevance_score i;
     iv_profile_type := PostInteraction.profile_type i;
     iv_seniority := PostInteraction.seniority_level i;
     (* a UUID is always truthy: the test is on None *)
     iv_lead_id := uuid_str <$> PostInteraction.lead_id i |}.

(** [[i for i in interactions if i.lead_id]] *)
Definition with_lead (interactions : list PostInteraction.t) : list PostInteraction.t :=
  filter (fun i => is_Some (PostInteraction.lead_id i)) interactions.

(** [[i for i in interactions if i.classification == "high"]] *)
Definition high_value (interactions : list PostInteraction.t) : list PostInteraction.t :=
  filter (fun i => PostInteraction.classification i = "high") interactions.

(** The body of the loop over the posts: the entry appended for [post]. *)
Definition result_item `{Runtime} `{SqlEngine} (db : Database) (post : LinkedInPost.t)
    : ResultItem :=
  let interactions := select_interactions db (LinkedInPost.id post) in
  let lead_ids := omap PostInteraction.lead_id interactions in
  let leads := match lead_ids with [] => [] | _ => select_leads db lead_ids end in
  {| post := post_view post;
     interactions := interaction_view <$> interactions;
     leads_created := length (with_lead interactions);
     high_value_count := length (high_value interactions) |}.

(** The handler, on the arguments FastAPI bound for it. *)
Definition get_analysis_results `{Runtime} `{SqlEngine} (db : Database) (org_id : string)
    (limit : Z) (status : option string) : outcome Results :=
  try_except
    (org_uuid <- uuid_parse org_id ;;
     posts <- select_posts db org_uuid limit status ;;
     let results := result_item db <$> posts in
     Return {| total := length results; results := results |})
    (fun e => Raise (HTTPException 500 (exn_str e))).

(** The route [GET /results], from the query string on: [limit] defaults
    to 20 and is validated against [le=100] before the handler runs; a
    request that fails validation is answered 422. *)
Definition results_route `{Runtime} `{SqlEngine} (db : Database) (org_id : string)
    (limit : option Z) (status : option string) : outcome Results :=
  let limit := default 20 limit in
  if (limit <=? 100)%Z then get_analysis_results db org_id limit status
  else Raise (HTTPException 422 "Input should be less than or equal to 100").


(** A service that starts every post it is given and answers their URLs. *)
Definition echo_service : AnalysisService unit :=
  {| analyze_posts := fun urls _ _ => sret urls |}.

Definition fresh_world : World unit := {| service_state := tt; analyses_started := [] |}.

(** A batch of eleven URLs, and a batch of one under an ill-formed
    organization id. *)
Definition oversized_request : AnalyzeRequest :=
  {| post_urls := replicate 11 "https://www.linkedin.com/posts/example";
     org_id := "12345678-1234-5678-1234-567812345678";
     persona_id := None |}.

Definition malformed_org_request : AnalyzeRequest :=
  {| post_urls := ["https://www.linkedin.com/posts/example"];
     org_id := "not-a-uuid";
     persona_id := None |}.

End AnalysisApi.

(** ** repositories/campaign_repo.py *)

Module Campaign.

(** Modelled from the spec: the [Campaign] entity
    (backend/models/campaign.py), one of the ORM-mapped entities, by the
    columns campaign_repo.py reads and writes; the primary key is the key
    of the table below. *)
Record t : Type := {
  org_id : UUID;
  status : string;
  type : string;
  leads_count : Z;
  qualified_leads_count : Z;
  contacted_count : Z;
  replied_count : Z;
  started_at : option Z;
  paused_at : option Z;
  last_resumed_at : option Z;
  completed_at : option Z;
  updated_at : option Z
}.

Definition set_status (v : string) (c : t) : t :=
  {| org_id := org_id c; status := v; type := type c; leads_count := leads_count c;
     qualified_leads_count := qualified_leads_count c;
     contacted_count := contacted_count c; replied_count := replied_count c;
     started_at := started_at c; paused_at := paused_at c;
     last_resumed_at := last_resumed_at c; completed_at := completed_at c;
     updated_at := updated_at c |}.

Definition set_updated_at (v : option Z) (c : t) : t :=
  {| org_id := org_id c; status := status c; type := type c; leads_count := leads_count c;
     qualified_leads_count := qualified_leads_count c;
     contacted_count := contacted_count c; replied_count := replied_count c;
     started_at := started_at c; paused_at := paused_at c;
     last_resumed_at := last_resumed_at c; completed_at := completed_at c;
     updated_at := v |}.

Definition set_started_at (v : option Z) (c : t) : t :=
  {| org_id := org_id c; status := status c; type := type c; leads_count := leads_count c;
     qualified_leads_count := qualified_leads_count c;
     contacted_count := contacted_count c; replied_count := replied_count c;
     started_at := v; paused_at := paused_at c;
     last_resumed_at := last_resumed_at c; completed_at := completed_at c;
     updated_at := updated_at c |}.

Definition set_paused_at (v : option Z) (c : t) : t :=
  {| org_id := org_id c; status := status c; type := type c; leads_count := leads_count c;
     qualified_leads_count := qualified_leads_count c;
     contacted_count := contacted_count c; replied_count := replied_count c;
     started_at := started_at c; paused_at := v;
     last_resumed_at := last_resumed_at c; completed_at := completed_at c;
     updated_at := updated_at c |}.

Definition set_last_resumed_at (v : option Z) (c : t) : t :=
  {| org_id := org_id c; status := status c; type := type c; leads_count := leads_count c;
     qualified_leads_count := qualified_leads_count c;
     contacted_count := contacted_count c; replied_count := replied_count c;
     started_at := started_at c; paused_at := paused_at c;
     last_resumed_at := v; completed_at := completed_at c;
     updated_at := updated_at c |}.

Definition set_completed_at (v : option Z) (c : t) : t :=
  {| org_id := org_id c; status := status c; type := type c; leads_count := leads_count c;
     qualified_leads_count := qualified_leads_count c;
     contacted_count := contacted_count c; replied_count := replied_count c;
     started_at := started_at c; paused_at := paused_at c;
     last_resumed_at := last_resumed_at c; completed_at := v;
     updated_at := updated_at c |}.


Definition set_leads_count (v : Z) (c : t) : t :=
  {| org_id := org_id c; status := status c; type := type c; leads_count := v;
     qualified_leads_count := qualified_leads_count c;
     contacted_count := contacted_count c; replied_count := replied_count c;
     started_at := started_at c; paused_at := paused_at c;
     last_resumed_at := last_resumed_at c; completed_at := completed_at c;
     updated_at := updated_at c |}.

(** The columns no status change is meant to touch. *)
Definition same_counters (c c' : t) : Prop :=
  org_id c' = org_id c /\ type c' = type c /\
  leads_count c' = leads_count c /\
  qualified_leads_count c' = qualified_leads_count c /\
  contacted_count c' = contacted_count c /\
  replied_count c' = replied_count c.

End Campaign.

Module CampaignRepo.

Local Open Scope py_scope.

(** What the repository acts on: the committed [campaign] table by primary
    key, and the clock. [clock n] is what the [n]-th call of
    [datetime.utcnow()] returns; [ticks] counts the calls made. *)
Record World : Type := {
  campaigns : gmap UUID Campaign.t;
  clock : nat -> Z;
  ticks : nat
}.

(** [datetime.utcnow()] *)
Definition utcnow : stateful World Z :=
  fun w => (Return (clock w (ticks w)),
            {| campaigns := campaigns w; clock := clock w; ticks := S (ticks w) |}).

(** Modelled from the spec: [BaseRepository.get]
    (backend/repositories/base.py), the method of a repository object
    wrapping a parameterized query: the row with this primary key, or
    [None]. *)
Definition get (campaign_id : UUID) : stateful World (option Campaign.t) :=
  fun w => (Return (campaigns w !! campaign_id), w).

(** [self.session.add(campaign); await self.session.commit()]: the loaded
    object, as mutated, becomes the committed row. *)
Definition add_commit (campaign_id : UUID) (campaign : Campaign.t) : stateful World unit :=
  fun w => (Return tt,
            {| campaigns := <[campaign_id := campaign]> (campaigns w);
               clock := clock w; ticks := ticks w |}).

(** [await self.session.refresh(campaign)]: the object is reloaded from its row. *)
Definition refresh (campaign_id : UUID) : stateful World Campaign.t :=
  fun w =>
    match campaigns w !! campaign_id with
    | Some c => (Return c, w)
    | None => (Raise (PyExc "InvalidRequestError" "Could not refresh instance"), w)
    end.

(** The [if status == ...] chain that sets the timestamps. *)
Definition set_timestamps (status : string) (campaign : Campaign.t)
    : stateful World Campaign.t :=
  if String.eqb status "active" then
    campaign <--
      (match Campaign.started_at campaign with
       | None => now <-- utcnow ;; sret (Campaign.set_started_at (Some now) campaign)
       | Some _ => sret campaign
       end) ;;
    let campaign := Campaign.set_paused_at None campaign in
    now <-- utcnow ;;
    sret (Campaign.set_last_resumed_at (Some now) campaign)
  else if String.eqb status "paused" then
    now <-- utcnow ;;
    sret (Campaign.set_paused_at (Some now) campaign)
  else if String.eqb status "completed" then
    now <-- utcnow ;;
    sret (Campaign.set_completed_at (Some now) campaign)
  else sret campaign.

(** Update campaign status with appropriate timestamps. *)
Definition update_status (campaign_id : UUID) (status : string)
    : stateful World (option Campaign.t) :=
  found <-- get campaign_id ;;
  match found with
  | None => sret None
  | Some campaign =>
      let campaign := Campaign.set_status status campaign in
      now <-- utcnow ;;
      let campaign := Campaign.set_updated_at (Some now) campaign in
      campaign <-- set_timestamps status campaign ;;
      _ <-- add_commit campaign_id campaign ;;
      campaign <-- refresh campaign_id ;;
      sret (Some campaign)
  end.


(** Increment leads count for a campaign; [count] is 1 when the caller
    gives none. The object is not refreshed after the commit. *)
Definition increment_leads_count (campaign_id : UUID) (count : Z) : stateful World bool :=
  found <-- get campaign_id ;;
  match found with
  | Some campaign =>
      let campaign :=
        Campaign.set_leads_count (Campaign.leads_count campaign + count) campaign in
      now <-- utcnow ;;
      let campaign := Campaign.set_updated_at (Some now) campaign in
      _ <-- add_commit campaign_id campaign ;;
      sret true
  | None => sret false
  end.

(** Get all active campaigns for an organization: the rows, each with its
    primary key, in the order the table is scanned. *)
Definition get_active (org_id : UUID) : stateful World (list (UUID * Campaign.t)) :=
  fun w =>
    (Return (filter (fun row => Campaign.org_id row.2 = org_id /\
                                Campaign.status row.2 = "active")
                    (map_to_list (campaigns w))),
     w).

(** The dict [get_stats] builds for a campaign it found. *)
Record Stats : Type := {
  stats_campaign_id : UUID;
  stats_leads_count : Z;
  stats_qualified_leads_count : Z;
  stats_contacted_count : Z;
  stats_replied_count : Z;
  stats_status : string;
  stats_started_at : option Z;
  stats_completed_at : option Z
}.

(** Get statistics for a specific campaign; [None] stands for the empty
    dict answered when there is no such campaign. *)
Definition get_stats (campaign_id : UUID) : stateful World (option Stats) :=
  found <-- get campaign_id ;;
  match found with
  | None => sret None
  | Some campaign =>
      sret (Some {| stats_campaign_id := campaign_id;
                    stats_leads_count := Campaign.leads_count campaign;
                    stats_qualified_leads_count := Campaign.qualified_leads_count campaign;
                    stats_contacted_count := Campaign.contacted_count campaign;
                    stats_replied_count := Campaign.replied_count campaign;
                    stats_status := Campaign.status campaign;
                    stats_started_at := Campaign.started_at campaign;
                    stats_completed_at := Campaign.completed_at campaign |})
  end.

(** The world after a caller has set these statuses one after the other. *)
Fixpoint update_statuses (campaign_id : UUID) (statuses : list string) (w : World) : World :=
  match statuses with
  | [] => w
  | status :: rest => update_statuses campaign_id rest (update_status campaign_id status w).2
  end.

(** A draft campaign that never ran, one that is running, and a world that
    holds them under the keys 1 and 2, with a clock that reads 1000, 1001, ... *)
Definition draft : Campaign.t :=
  {| Campaign.org_id := 1%N; Campaign.status := "draft"; Campaign.type := "social";
     Campaign.leads_count := 0; Campaign.qualified_leads_count := 0;
     Campaign.contacted_count := 0; Campaign.replied_count := 0;
     Campaign.started_at := None; Campaign.paused_at := None;
     Campaign.last_resumed_at := None; Campaign.completed_at := None;
     Campaign.updated_at := None |}.

Definition running : Campaign.t :=
  {| Campaign.org_id := 1%N; Campaign.status := "active"; Campaign.type := "email";
     Campaign.leads_count := 12; Campaign.qualified_leads_count := 3;
     Campaign.contacted_count := 9; Campaign.replied_count := 2;
     Campaign.started_at := Some 500; Campaign.paused_at := None;
     Campaign.last_resumed_at := Some 500; Campaign.completed_at := None;
     Campaign.updated_at := Some 500 |}.

Definition world : World :=
  {| campaigns := <[ 1%N := draft ]> {[ 2%N := running ]};
     clock := fun n => 1000 + Z.of_nat n;
     ticks := 0 |}.

End CampaignRepo.

(** ** An ASCII runtime and a merge-sort engine, to run the definitions *)

Module Concrete.

Definition ascii_lower (c : ascii) : ascii :=
  let n := nat_of_ascii c in
  if ((65 <=? n) && (n <=? 90))%nat then ascii_of_nat (n + 32) else c.

Fixpoint lower (s : string) : string :=
  match s with
  | EmptyString => EmptyString
  | String c rest => String (ascii_lower c) (lower rest)
  end.

Definition hex_digit (c : ascii) : option N :=
  let n := N_of_ascii c in
  if ((48 <=? n) && (n <=? 57))%N then Some (n - 48)%N
  else if ((97 <=? n) && (n <=? 102))%N then Some (n - 87)%N
  else if ((65 <=? n) && (n <=? 70))%N then Some (n - 55)%N
  else None.

Fixpoint hex_value (acc : N) (s : string) : option N :=
  match s with
  | EmptyString => Some acc
  | String c rest =>
      match hex_digit c with
      | Some d => hex_value (16 * acc + d)%N rest
      | None => None
      end
  end.

Fixpoint drop_hyphens (s : string) : string :=
  match s with
  | EmptyString => EmptyString
  | String c rest =>
      if Ascii.eqb c "-"%char then drop_hyphens rest else String c (drop_hyphens rest)
  end.

(** The plain and the hyphenated hexadecimal forms of a UUID. *)
Definition parse_uuid (s : string) : outcome UUID :=
  let hex := drop_hyphens s in
  if Nat.eqb (String.length hex) 32 then
    match hex_value 0%N hex with
    | Some n => Return n
    | None => Raise (PyExc "ValueError" "badly formed hexadecimal UUID string")
    end
  else Raise (PyExc "ValueError" "badly formed hexadecimal UUID string").

(** Strings print as they are, integers in decimal; the JSON reader knows
    the empty object only. *)
Definition ascii_runtime : Runtime := {|
  str_lower := lower;
  format_value := fun v =>
    match v with
    | PyStr s => s
    | PyInt n => pretty n
    | _ => "[]"
    end;
  json_loads := fun s =>
    if String.eqb s "{}" then Return (PyDict ∅)
    else Raise (PyExc "JSONDecodeError" "Expecting value");
  uuid_parse := parse_uuid;
  uuid_str := fun u => pretty u;
  isoformat := fun z => pretty z
|}.

Definition desc {A : Type} (key : A -> Z) : relation A := fun x y => key y <= key x.

Definition desc_transitive {A : Type} (key : A -> Z) : Transitive (desc key) :=
  fun x y z Hxy Hyz => Z.le_trans (key z) (key y) (key x) Hyz Hxy.

Definition desc_total {A : Type} (key : A -> Z) : Total (desc key) :=
  fun x y => Z.le_ge_cases (key y) (key x).

Definition desc_dec {A : Type} (key : A -> Z) : forall x y, Decision (desc key x y) :=
  fun x y => Z_le_dec (key y) (key x).

(** [ORDER BY ... DESC] by a stable merge sort. *)
Definition merge_sort_engine : SqlEngine := {|
  order_by_desc := fun A key rows => @merge_sort A (desc key) (desc_dec key) rows;
  order_by_desc_sorted := fun A key rows =>
    @StronglySorted_merge_sort A (desc key) (desc_dec key)
      (desc_transitive key) (desc_total key) rows;
  order_by_desc_perm := fun A key rows =>
    @merge_sort_Permutation A (desc key) (desc_dec key) rows
|}.

End Concrete.

(** ** A small database *)

Module Samples.

Definition mk_post (id org : UUID) (status : string) (created_at : Z) : LinkedInPost.t :=
  {| LinkedInPost.id := id;
     LinkedInPost.post_url := "https://www.linkedin.com/posts/example";
     LinkedInPost.author_name := Some "Ada";
     LinkedInPost.post_content := Some "Looking for a CRM";
     LinkedInPost.posted_at := None;
     LinkedInPost.status := status;
     LinkedInPost.apify_run_id := None;
     LinkedInPost.post_intent := None;
     LinkedInPost.total_comments := 0;
     LinkedInPost.total_likes := 0;
     LinkedInPost.ai_insights := PyDict ∅;
     LinkedInPost.org_id := org;
     LinkedInPost.persona_id := None;
     LinkedInPost.created_at := created_at;
     LinkedInPost.updated_at := created_at |}.

Definition mk_interaction (id post_id : UUID) (urn : string) (score : Z)
    (classification : string) (lead_id : option UUID) : PostInteraction.t :=
  {| PostInteraction.id := id;
     PostInteraction.post_id := post_id;
     PostInteraction.type := "COMMENT";
     PostInteraction.content := Some "Interested";
     PostInteraction.reacted_at := None;
     PostInteraction.actor_name := Some "Grace";
     PostInteraction.actor_profile_url := None;
     PostInteraction.actor_headline := Some "VP Sales";
     PostInteraction.actor_urn := Some urn;
     PostInteraction.relevance_score := score;
     PostInteraction.classification := classification;
     PostInteraction.profile_type := Some "individual";
     PostInteraction.seniority_level := Some "VP";
     PostInteraction.role_category := Some "influencer";
     PostInteraction.ai_insights := PyDict ∅;
     PostInteraction.lead_id := lead_id |}.

(** Organization 1 has a pending and a completed post, organization 2 a
    completed one; the completed post of organization 1 has two comments. *)
Definition db : AnalysisApi.Database :=
  {| AnalysisApi.linkedin_post :=
       [ mk_post 1%N 1%N "pending" 100; mk_post 2%N 1%N "completed" 200;
         mk_post 3%N 2%N "completed" 300 ];
     AnalysisApi.post_interaction :=
       [ mk_interaction 11%N 2%N "urn:li:person:a" 40 "medium" None;
         mk_interaction 12%N 2%N "urn:li:person:b" 90 "high" (Some 7%N);
         mk_interaction 13%N 1%N "urn:li:person:c" 10 "low" None ];
     AnalysisApi.lead := [ {| Lead.id := 7%N |} ] |}.

(** The id of organization 1, as a request carries it. *)
Definition org1 : string := "00000000-0000-0000-0000-000000000001".

End Samples.

(** ** api/apify.py: trigger_scrape *)

Module ApifyApi.

Record ScrapeRequest : Type := { actor_id : string; run_input : gmap string pyval }.

(** [obj[key]] for a string key: the entry of a dict, [KeyError] when it
    has none, [TypeError] on what is not a dict. *)
Definition subscript (obj : pyval) (key : string) : outcome pyval :=
  match obj with
  | PyDict d =>
      match d !! key with
      | Some v => Return v
      | None => Raise (PyExc "KeyError" ("'" ++ key ++ "'"))
      end
  | PyStr _ => Raise (PyExc "TypeError" "string indices must be integers")
  | PyList _ => Raise (PyExc "TypeError" "list indices must be integers or slices, not str")
  | _ => Raise (PyExc "TypeError" "object is not subscriptable")
  end.

(** [apify_service] (backend/services/apify_service.py), as the handler
    knows it: an object with a state of its own whose [run_actor] answers a
    value or raises. *)
Record ApifyService (S : Type) : Type := {
  run_actor : string -> gmap string pyval -> stateful S pyval
}.
Arguments run_actor {S} _ _ _ _.

(** How a call of the handler ends: with a body, with an [HTTPException]
    whose detail is any value, or with another exception. *)
Inductive reply : Type :=
| Answer (body : pyval)
| HTTPError (status_code : Z) (detail : pyval)
| Unhandled (e : exn).

(** Manually trigger an Apify scrape. *)
Definition trigger_scrape {S} (svc : ApifyService S) (request : ScrapeRequest)
    : S -> reply * S :=
  fun s =>
    match run_actor svc (actor_id request) (run_input request) s with
    | (Raise e, s') => (Unhandled e, s')
    | (Return result, s') =>
        match subscript result "success" with
        | Raise e => (Unhandled e, s')
        | Return success =>
            if negb (truthy success) then
              match subscript result "error" with
              | Raise e => (Unhandled e, s')
              | Return error => (HTTPError 500 error, s')
              end
            else (Answer result, s')
        end
    end.

(** A service whose every run fails with a quota message. *)
Definition out_of_quota : ApifyService unit :=
  {| run_actor := fun _ _ =>
       sret (PyDict (<[ "success" := PyBool false ]>
                     {[ "error" := PyStr "quota exceeded" ]})) |}.

Definition linkedin_scrape : ScrapeRequest :=
  {| actor_id := "curious_programmer/linkedin-profile-scraper"; run_input := ∅ |}.

End ApifyApi.

(** ** Which rows a results request asks for *)

Module Matching.

(** The status test of the statement for the posts: none for a missing or
    empty status. *)
Definition status_wanted (status : option string) (p : LinkedInPost.t) : bool :=
  match status with
  | Some s => if str_truthy s then bool_decide (LinkedInPost.status p = s) else true
  | None => true
  end.

(** The posts of an organization that pass the status test. *)
Definition matching_posts (db : AnalysisApi.Database) (org_uuid : UUID)
    (status : option string) : list LinkedInPost.t :=
  filter (fun p => LinkedInPost.org_id p = org_uuid /\ status_wanted status p = true)
         (AnalysisApi.linkedin_post db).

(** The interaction rows of a post. *)
Definition interactions_of (db : AnalysisApi.Database) (p : LinkedInPost.t)
    : list PostInteraction.t :=
  filter (fun i => PostInteraction.post_id i = LinkedInPost.id p)
         (AnalysisApi.post_interaction db).

End Matching.

(** ** api/users.py *)

Module User.

(** Modelled from the spec: the [User] entity (backend/models/user.py), one
    of the ORM-mapped entities, by the attributes users.py reads and
    writes. The three settings hold whatever value the settings request
    carried. *)
Record t : Type := {
  id : UUID;
  email : string;
  full_name : option string;
  avatar_url : option string;
  is_verified : bool;
  current_org_id : option UUID;
  created_at : Z;
  last_login_at : option Z;
  language_preference : pyval;
  timezone : pyval;
  email_preferences : pyval;
  updated_at : option Z
}.

Definition set_language_preference (v : pyval) (u : t) : t :=
  {| id := id u; email := email u; full_name := full_name u; avatar_url := avatar_url u;
     is_verified := is_verified u; current_org_id := current_org_id u;
     created_at := created_at u; last_login_at := last_login_at u;
     language_preference := v; timezone := timezone u;
     email_preferences := email_preferences u; updated_at := updated_at u |}.

Definition set_timezone (v : pyval) (u : t) : t :=
  {| id := id u; email := email u; full_name := full_name u; avatar_url := avatar_url u;
     is_verified := is_verified u; current_org_id := current_org_id u;
     created_at := created_at u; last_login_at := last_login_at u;
     language_preference := language_preference u; timezone := v;
     email_preferences := email_preferences u; updated_at := updated_at u |}.

Definition set_email_preferences (v : pyval) (u : t) : t :=
  {| id := id u; email := email u; full_name := full_name u; avatar_url := avatar_url u;
     is_verified := is_verified u; current_org_id := current_org_id u;
     created_at := created_at u; last_login_at := last_login_at u;
     language_preference := language_preference u; timezone := timezone u;
     email_preferences := v; updated_at := updated_at u |}.

Definition set_updated_at (v : option Z) (u : t) : t :=
  {| id := id u; email := email u; full_name := full_name u; avatar_url := avatar_url u;
     is_verified := is_verified u; current_org_id := current_org_id u;
     created_at := created_at u; last_login_at := last_login_at u;
     language_preference := language_preference u; timezone := timezone u;
     email_preferences := email_preferences u; updated_at := v |}.

(** The attributes a settings request cannot touch. *)
Definition same_identity (u u' : t) : Prop :=
  id u' = id u /\ email u' = email u /\ full_name u' = full_name u /\
  avatar_url u' = avatar_url u /\ is_verified u' = is_verified u /\
  current_org_id u' = current_org_id u /\ created_at u' = created_at u /\
  last_login_at u' = last_login_at u.

End User.

Module OrganizationMember.

(** Modelled from the spec: the [OrganizationMember] entity
    (backend/models/user.py), by the columns users.py reads. *)
Record t : Type := { user_id : UUID; org_id : UUID; role : string }.

End OrganizationMember.

Module ActivityLog.

(** Modelled from the spec: the [ActivityLog] entity
    (backend/models/activity.py), by the columns users.py reads; those it
    only hands on are values of any kind. *)
Record t : Type := {
  id : UUID;
  actor_id : option UUID;
  action : pyval;
  entity_type : pyval;
  entity_id : option UUID;
  description : pyval;
  meta_data : pyval;
  ip_address : pyval;
  user_agent : pyval;
  created_at : Z
}.

End ActivityLog.

Module UsersApi.

Local Open Scope py_scope.

(** What the handlers act on: the committed tables and the clock. *)
Record World : Type := {
  users : gmap UUID User.t;
  members : list OrganizationMember.t;
  activities : list ActivityLog.t;
  clock : nat -> Z;
  ticks : nat
}.

Definition utcnow : stateful World Z :=
  fun w => (Return (clock w (ticks w)),
            {| users := users w; members := members w; activities := activities w;
               clock := clock w; ticks := S (ticks w) |}).

(** [session.add(current_user); await session.commit()] *)
Definition add_commit (current_user : User.t) : stateful World unit :=
  fun w => (Return tt,
            {| users := <[User.id current_user := current_user]> (users w);
               members := members w; activities := activities w;
               clock := clock w; ticks := ticks w |}).

(** [await session.refresh(current_user)] *)
Definition refresh (current_user : User.t) : stateful World User.t :=
  fun w =>
    match users w !! User.id current_user with
    | Some u => (Return u, w)
    | None => (Raise (PyExc "InvalidRequestError" "Could not refresh instance"), w)
    end.

(** The body [UserResponse(...)]. *)
Record UserResponse : Type := {
  ur_id : UUID;
  ur_email : string;
  ur_full_name : option string;
  ur_avatar_url : option string;
  ur_is_verified : bool;
  ur_current_org_id : option UUID;
  ur_role : option string;
  ur_created_at : Z;
  ur_last_login_at : option Z
}.

(** The membership query and [result.first()]: the first row of the user
    in the organization, in the order the table is scanned. *)
Definition first_membership (user_id org_id : UUID) : stateful World (option OrganizationMember.t) :=
  fun w =>
    (Return (head (filter (fun m => OrganizationMember.user_id m = user_id /\
                                    OrganizationMember.org_id m = org_id)
                          (members w))),
     w).

(** Get current user profile with role in current organization. *)
Definition get_current_user_profile (current_user : User.t) : stateful World UserResponse :=
  role <--
    (match User.current_org_id current_user with
     | Some org =>
         membership <-- first_membership (User.id current_user) org ;;
         match membership with
         | Some m => sret (Some (OrganizationMember.role m))
         | None => sret None
         end
     | None => sret None
     end) ;;
  sret {| ur_id := User.id current_user;
          ur_email := User.email current_user;
          ur_full_name := User.full_name current_user;
          ur_avatar_url := User.avatar_url current_user;
          ur_is_verified := User.is_verified current_user;
          ur_current_org_id := User.current_org_id current_user;
          ur_role := role;
          ur_created_at := User.created_at current_user;
          ur_last_login_at := User.last_login_at current_user |}.

(** [x or {}] *)
Definition or_empty_dict (x : pyval) : pyval := if truthy x then x else PyDict ∅.

(** Get current user settings. *)
Definition get_user_settings (current_user : User.t) : pyval :=
  PyDict (<[ "language_preference" := User.language_preference current_user ]>
          (<[ "timezone" := User.timezone current_user ]>
           {[ "email_preferences" := or_empty_dict (User.email_preferences current_user) ]})).

(** Update current user settings. *)
Definition update_user_settings (settings : gmap string pyval) (current_user : User.t)
    : stateful World pyval :=
  let current_user :=
    match settings !! "language_preference" with
    | Some v => User.set_language_preference v current_user
    | None => current_user
    end in
  let current_user :=
    match settings !! "timezone" with
    | Some v => User.set_timezone v current_user
    | None => current_user
    end in
  let current_user :=
    match settings !! "email_preferences" with
    | Some v => User.set_email_preferences v current_user
    | None => current_user
    end in
  now <-- utcnow ;;
  let current_user := User.set_updated_at (Some now) current_user in
  _ <-- add_commit current_user ;;
  current_user <-- refresh current_user ;;
  sret (PyDict (<[ "language_preference" := User.language_preference current_user ]>
                (<[ "timezone" := User.timezone current_user ]>
                 {[ "email_preferences" :=
                      or_empty_dict (User.email_preferences current_user) ]}))).

(** One entry of ["items"]. *)
Record ActivityView : Type := {
  av_id : string;
  av_action : pyval;
  av_entity_type : pyval;
  av_entity_id : option string;
  av_description : pyval;
  av_meta_data : pyval;
  av_ip_address : pyval;
  av_user_agent : pyval;
  av_created_at : string
}.

(** The body [{"items": ..., "total": ...}]. *)
Record ActivityPage : Type := { items : list ActivityView; page_total : nat }.

Definition activity_view `{Runtime} (activity : ActivityLog.t) : ActivityView :=
  {| av_id := uuid_str (ActivityLog.id activity);
     av_action := ActivityLog.action activity;
     av_entity_type := ActivityLog.entity_type activity;
     av_entity_id := uuid_str <$> ActivityLog.entity_id activity;
     av_description := ActivityLog.description activity;
     av_meta_data := ActivityLog.meta_data activity;
     av_ip_address := ActivityLog.ip_address activity;
     av_user_agent := ActivityLog.user_agent activity;
     av_created_at := isoformat (ActivityLog.created_at activity) |}.

(** The statement for the activity logs of a user. *)
Definition select_activities `{SqlEngine} (current_user : User.t) (limit : Z)
    : stateful World (list ActivityLog.t) :=
  fun w =>
    (AnalysisApi.sql_limit limit
       (order_by_desc ActivityLog.created_at
          (filter (fun a => ActivityLog.actor_id a = Some (User.id current_user))
                  (activities w))),
     w).

(** Get user activity logs; [limit] is 50 when the request gives none. *)
Definition get_user_activity `{Runtime} `{SqlEngine} (current_user : User.t)
    (limit : option Z) : stateful World ActivityPage :=
  let limit := default 50%Z limit in
  activities <-- select_activities current_user limit ;;
  sret {| items := activity_view <$> activities; page_total := length activities |}.

(** A user of organization 5 whose email preferences were never set, a
    membership, two log entries of the user and one of somebody else. *)
Definition ada : User.t :=
  {| User.id := 1%N; User.email := "ada@example.com"; User.full_name := Some "Ada";
     User.avatar_url := None; User.is_verified := true;
     User.current_org_id := Some 5%N; User.created_at := 10; User.last_login_at := None;
     User.language_preference := PyStr "en"; User.timezone := PyStr "UTC";
     User.email_preferences := PyNone; User.updated_at := None |}.

Definition mk_activity (id : UUID) (actor : option UUID) (created_at : Z) : ActivityLog.t :=
  {| ActivityLog.id := id; ActivityLog.actor_id := actor;
     ActivityLog.action := PyStr "login"; ActivityLog.entity_type := PyNone;
     ActivityLog.entity_id := None; ActivityLog.description := PyNone;
     ActivityLog.meta_data := PyDict ∅; ActivityLog.ip_address := PyNone;
     ActivityLog.user_agent := PyNone; ActivityLog.created_at := created_at |}.

Definition world : World :=
  {| users := {[ 1%N := ada ]};
     members := [ {| OrganizationMember.user_id := 1%N; OrganizationMember.org_id := 5%N;
                     OrganizationMember.role := "admin" |} ];
     activities := [ mk_activity 31%N (Some 1%N) 100; mk_activity 32%N (Some 2%N) 150;
                     mk_activity 33%N (Some 1%N) 200 ];
     clock := fun n => 1000 + Z.of_nat n;
     ticks := 0 |}.

End UsersApi.

(** * Properties *)

(** ** Control flow *)

Section ControlFlow.

Lemma bind_returns {A B} (m : outcome A) (k : A -> outcome B) (b : B) :
  bind m k = Return b -> exists a, m = Return a /\ k a = Return b.
Proof. destruct m as [a|e]; simpl; [eauto | discriminate]. Qed.

Lemma try_except_total {A} (body : outcome A) (handler : exn -> outcome A) :
  (forall e, returns (handler e)) -> returns (try_except body handler).
Proof.
  intros Hh. destruct body as [a|e]; simpl.
  - now exists a.
  - apply Hh.
Qed.

End ControlFlow.

(** ** Substring search *)

Section Substring.

Lemma prefix_spec (needle hay : string) :
  String.prefix needle hay = true <-> exists rest, hay = needle ++ rest.
Proof.
  revert hay. induction needle as [|a needle IH]; intros hay; simpl.
  - split; [intros _; now exists hay | now destruct hay].
  - destruct hay as [|b hay].
    + split; [discriminate | intros [rest Hrest]; discriminate].
    + simpl. destruct (Ascii.ascii_dec a b) as [->|Hab].
      * rewrite IH. split; intros [rest Hrest]; exists rest.
        -- simpl. now rewrite Hrest.
        -- simpl in Hrest. now injection Hrest.
      * split; [discriminate|]. intros [rest Hrest]. simpl in Hrest.
        injection Hrest as Hb _. now contradiction Hab.
Qed.

Lemma str_in_spec (needle hay : string) :
  str_in needle hay = true <-> contains needle hay.
Proof.
  induction hay as [|c hay IH]; cbn [str_in].
  - rewrite orb_false_r, prefix_spec. split.
    + intros [rest Hrest]. now exists EmptyString, rest.
    + intros [[|b before] [after Heq]]; [now exists after | discriminate].
  - rewrite orb_true_iff, prefix_spec, IH. simpl. split.
    + intros [[rest Hrest] | [before [after Heq]]].
      * now exists EmptyString, rest.
      * exists (String c before), after. simpl. now rewrite Heq.
    + intros [[|b before] [after Heq]].
      * left. now exists after.
      * right. injection Heq as _ Heq. now exists before, after.
Qed.

Lemma str_in_false (needle hay : string) :
  str_in needle hay = false <-> ~ contains needle hay.
Proof. rewrite <- str_in_spec. now destruct (str_in needle hay). Qed.

End Substring.

(** ** The AI analysis service *)

Section AIAnalysisServiceProperties.

Import AIAnalysisService.
Context `{Runtime}.

Lemma any_in_spec (needles : list string) (hay : string) :
  any_in needles hay = true <-> Exists (fun x => contains x hay) needles.
Proof.
  unfold any_in. induction needles as [|x needles IH]; simpl.
  - split; [discriminate | intros Hex; inversion Hex].
  - rewrite orb_true_iff, str_in_spec, IH, Exists_cons. reflexivity.
Qed.

Lemma any_in_false (needles : list string) (hay : string) :
  any_in needles hay = false <-> ~ Exists (fun x => contains x hay) needles.
Proof. rewrite <- any_in_spec. now destruct (any_in needles hay). Qed.

(** The three fields of the fallback the rules are about, read off once. *)
Lemma fallback_fields (headline : string) :
  let r := _fallback_evaluation headline in
  field_of r "seniority_level" =
    Some (PyStr
      (if any_in ["CEO"; "Founder"; "President"] headline then "C-level"
       else if any_in ["VP"; "Vice President"] headline then "VP"
       else if str_in "Director" headline then "Director"
       else if str_in "Manager" headline then "Manager"
       else "IC")) /\
  field_of r "role_category" =
    Some (PyStr (if any_in ["student"; "recruiter"; "intern"] (str_lower headline)
                 then "irrelevant" else "influencer")) /\
  field_of r "persona_fit_score" =
    Some (PyInt (if any_in ["student"; "recruiter"; "intern"] (str_lower headline)
                 then 0 else 50)).
Proof.
  unfold _fallback_evaluation.
  generalize (any_in ["CEO"; "Founder"; "President"] headline) as b1.
  generalize (any_in ["VP"; "Vice President"] headline) as b2.
  generalize (str_in "Director" headline) as b3.
  generalize (str_in "Manager" headline) as b4.
  generalize (any_in ["student"; "recruiter"; "intern"] (str_lower headline)) as b5.
  generalize (str_in "Company" headline || str_in "Ltd" headline) as b6.
  intros. cbv zeta. repeat split; reflexivity.
Qed.

(** C4: the fallback assigns the seniority by the first match in the order
    C-level (CEO, Founder, President), VP (VP, Vice President), Director,
    Manager, and IC when nothing matches; a lowercased headline containing
    student, recruiter or intern gives role irrelevant and score 0, any other
    headline gives role influencer and score 50. *)
Theorem fallback_evaluation_rules (headline : string) :
  let r := _fallback_evaluation headline in
  let seniority := field_of r "seniority_level" in
  let c_level := Exists (fun x => contains x headline) ["CEO"; "Founder"; "President"] in
  let vp := Exists (fun x => contains x headline) ["VP"; "Vice President"] in
  let director := contains "Director" headline in
  let manager := contains "Manager" headline in
  let excluded :=
    Exists (fun x => contains x (str_lower headline)) ["student"; "recruiter"; "intern"] in
  (c_level -> seniority = Some (PyStr "C-level")) /\
  (~ c_level -> vp -> seniority = Some (PyStr "VP")) /\
  (~ c_level -> ~ vp -> director -> seniority = Some (PyStr "Director")) /\
  (~ c_level -> ~ vp -> ~ director -> manager -> seniority = Some (PyStr "Manager")) /\
  (~ c_level -> ~ vp -> ~ director -> ~ manager -> seniority = Some (PyStr "IC")) /\
  (excluded ->
     field_of r "role_category" = Some (PyStr "irrelevant") /\
     field_of r "persona_fit_score" = Some (PyInt 0)) /\
  (~ excluded ->
     field_of r "role_category" = Some (PyStr "influencer") /\
     field_of r "persona_fit_score" = Some (PyInt 50)).
Proof.
  intros r seniority c_level vp director manager excluded.
  destruct (fallback_fields headline) as (Hsen & Hrole & Hscore).
  fold r in Hsen, Hrole, Hscore. fold seniority in Hsen.
  rewrite Hsen, Hrole, Hscore.
  subst c_level vp director manager excluded.
  repeat apply conj.
  - intros Hc. apply any_in_spec in Hc. now rewrite Hc.
  - intros Hc Hv. apply any_in_false in Hc. apply any_in_spec in Hv. now rewrite Hc, Hv.
  - intros Hc Hv Hd. apply any_in_false in Hc, Hv. apply str_in_spec in Hd.
    now rewrite Hc, Hv, Hd.
  - intros Hc Hv Hd Hm. apply any_in_false in Hc, Hv. apply str_in_false in Hd.
    apply str_in_spec in Hm. now rewrite Hc, Hv, Hd, Hm.
  - intros Hc Hv Hd Hm. apply any_in_false in Hc, Hv. apply str_in_false in Hd, Hm.
    now rewrite Hc, Hv, Hd, Hm.
  - intros He. apply any_in_spec in He. now rewrite He.
  - intros He. apply any_in_false in He. now rewrite He.
Qed.

Lemma parse_response_raises (response : ChatResponse) :
  (exists e, parse_response response = Raise e) <->
  response = [] \/
  (exists rest, response = None :: rest) \/
  (exists s rest e, response = Some s :: rest /\ json_loads s = Raise e).
Proof.
  unfold parse_response. destruct response as [|[s|] rest]; simpl.
  - split; [now left | intros _; eauto].
  - destruct (json_loads s) as [v|e] eqn:Hs; simpl.
    + split.
      * intros [e He]. discriminate.
      * intros [Hnil | [[rest' Hrest] | (s' & rest' & e & Heq & Hraise)]];
          try discriminate.
        injection Heq as <- _. rewrite Hs in Hraise. discriminate.
    + split; [|intros _; eauto].
      intros _. right. right. now exists s, rest, e.
  - split; [|intros _; eauto]. intros _. right. left. now exists rest.
Qed.



(** C6: [analyze_post_content] always returns; without a client, and when
    the call to the model or the parsing of its response raises, the result
    has intent unknown, no topics and relevance_score 50. *)
Theorem analyze_post_content_falls_back (self : t) (post_text customer_product : string) :
  let result := analyze_post_content self post_text customer_product in
  let request := chat_request self (post_prompt post_text customer_product) (3 # 10) in
  returns result /\
  (client self = None -> exists r, result = Return r /\ unknown_analysis r) /\
  (forall c e, client self = Some c ->
     chat_completions_create c request = Raise e ->
     exists r, result = Return r /\ unknown_analysis r) /\
  (forall c response e, client self = Some c ->
     chat_completions_create c request = Return response ->
     parse_response response = Raise e ->
     exists r, result = Return r /\ unknown_analysis r).
Proof.
  intros result request. subst result request. unfold analyze_post_content, ask.
  destruct (client self) as [c|]; repeat apply conj.
  - apply try_except_total. intros e. now eexists.
  - discriminate.
  - intros c' e [= <-] Hcall. rewrite Hcall. simpl. eexists. split; [reflexivity|].
    repeat split.
  - intros c' response e [= <-] Hcall Hparse. rewrite Hcall. simpl. rewrite Hparse.
    simpl. eexists. split; [reflexivity|]. repeat split.
  - now eexists.
  - intros _. eexists. split; [reflexivity|]. repeat split.
  - discriminate.
  - discriminate.
Qed.

End AIAnalysisServiceProperties.

Section AIAnalysisServiceRuns.

Import AIAnalysisService.

Lemma fallback_evaluation_rules_witness :
  field_of (@_fallback_evaluation Concrete.ascii_runtime "VP of Sales, ex-Intern")
    "seniority_level" = Some (PyStr "VP") /\
  field_of (@_fallback_evaluation Concrete.ascii_runtime "VP of Sales, ex-Intern")
    "persona_fit_score" = Some (PyInt 0).
Proof.
  pose proof (@fallback_evaluation_rules Concrete.ascii_runtime "VP of Sales, ex-Intern")
    as Hrules.
  cbv zeta in Hrules. destruct Hrules as (_ & Hvp & _ & _ & _ & Hexcluded & _).
  split.
  - apply Hvp.
    + apply any_in_false. reflexivity.
    + apply any_in_spec. reflexivity.
  - apply Hexcluded. apply any_in_spec. reflexivity.
Defined.




Lemma analyze_post_content_falls_back_witness :
  client unconfigured = None /\
  exists r,
    @analyze_post_content Concrete.ascii_runtime unconfigured "We need a CRM" EmptyString
      = Return r /\ unknown_analysis r.
Proof.
  split; [reflexivity|].
  pose proof (@analyze_post_content_falls_back Concrete.ascii_runtime unconfigured
                "We need a CRM" EmptyString) as Hfb.
  cbv zeta in Hfb. destruct Hfb as (_ & Hnone & _).
  apply Hnone. reflexivity.
Defined.

End AIAnalysisServiceRuns.

(** ** The webhook handlers *)

Section WebhookProperties.

Import Webhooks.

Lemma eq_str_spec (v : pyval) (s : string) : eq_str v s = true <-> v = PyStr s.
Proof.
  destruct v; simpl; try (split; [discriminate | intros [=]]).
  rewrite String.eqb_eq. split; [now intros -> | now intros [= ->]].
Qed.

(** On a well-shaped payload the four reads succeed, with [None] for what
    is not there. *)
Lemma read_payload_well_shaped (payload : pyval) :
  well_shaped payload = true ->
  exists run_id,
    read_payload payload =
      Return (default PyNone (event_type_of payload), run_id,
              default PyNone (default_dataset_id payload)).
Proof.
  destruct payload as [| | | | | |d]; try discriminate.
  unfold read_payload. cbn [well_shaped event_type_of default_dataset_id get bind].
  destruct (d !! "resource") as [[| | | | | |r]|]; try discriminate; intros _.
  - cbn. now eexists.
  - cbn. rewrite lookup_empty. now eexists.
Qed.

(** On any other payload a read raises, and nothing is scheduled. *)
Lemma read_payload_ill_shaped (payload : pyval) :
  well_shaped payload = false -> exists e, read_payload payload = Raise e.
Proof.
  destruct payload as [| | | | | |d]; try (intros _; now eexists).
  unfold read_payload. cbn [well_shaped get bind].
  destruct (d !! "resource") as [[| | | | | |r]|]; try discriminate;
    intros _; cbn; now eexists.
Qed.

(** When the handler's condition holds, in the terms of the payload. *)
Lemma run_succeeded_spec (payload : pyval) :
  run_succeeded (default PyNone (event_type_of payload))
                (default PyNone (default_dataset_id payload)) = true <->
  event_type_of payload = Some (PyStr "ACTOR.RUN.SUCCEEDED") /\
  exists dataset_id, default_dataset_id payload = Some dataset_id /\ truthy dataset_id = true.
Proof.
  unfold run_succeeded. rewrite andb_true_iff, eq_str_spec. split.
  - intros [Hev Hds]. split.
    + destruct (event_type_of payload); simpl in Hev; congruence.
    + destruct (default_dataset_id payload) as [v|]; simpl in Hds; [eauto | discriminate].
  - intros [Hev (v & Hds & Htrue)]. now rewrite Hev, Hds.
Qed.

Lemma app_singleton_neq {A} (l : list A) (x : A) : (l ++ [x])%list <> l.
Proof.
  intros Heq. apply (f_equal length) in Heq. rewrite length_app in Heq. simpl in Heq. lia.
Qed.

(** C2, as the code has it: on every payload that is an object whose
    resource, when present, is an object, both handlers answer
    [{"status": "received"}], and add one background fetch exactly when
    eventType is ACTOR.RUN.SUCCEEDED and resource.defaultDatasetId is
    there with a true truth value, nothing otherwise; there is no
    deduplication: the same successful payload delivered twice schedules
    two fetches. *)
Theorem webhook_schedules_on_success (payload : pyval) (background_tasks : BackgroundTasks) :
  well_shaped payload = true ->
  let succeeded :=
    event_type_of payload = Some (PyStr "ACTOR.RUN.SUCCEEDED") /\
    exists dataset_id, default_dataset_id payload = Some dataset_id /\ truthy dataset_id = true in
  forall handler, handler = apify_webhook \/ handler = analysis_webhook ->
    fst (handler payload background_tasks) = Return received /\
    ((exists task, snd (handler payload background_tasks) = (background_tasks ++ [task])%list)
       <-> succeeded) /\
    (~ succeeded -> snd (handler payload background_tasks) = background_tasks) /\
    (succeeded -> length (deliver handler [payload; payload]) = 2%nat).
Proof.
  intros Hshape succeeded handler Hhandler.
  destruct (read_payload_well_shaped payload Hshape) as [run_id Hread].
  pose proof (run_succeeded_spec payload) as Hspec. fold succeeded in Hspec.
  assert (exists name, forall bt,
    handler payload bt =
      (Return received,
       if run_succeeded (default PyNone (event_type_of payload))
                        (default PyNone (default_dataset_id payload))
       then add_task bt name [default PyNone (default_dataset_id payload); run_id]
       else bt)) as [name Hrun].
  { destruct Hhandler as [-> | ->].
    - exists "process_apify_dataset". intros bt.
      unfold apify_webhook. rewrite Hread. now destruct (run_succeeded _ _).
    - exists "analysis_service.process_webhook". intros bt.
      unfold analysis_webhook. rewrite Hread. now destruct (run_succeeded _ _). }
  split; [|split; [|split]].
  - now rewrite Hrun.
  - rewrite Hrun. destruct (run_succeeded _ _); simpl.
    + split; [intros _; now apply Hspec | intros _; now eexists].
    + split.
      * intros [task Htask]. symmetry in Htask. now apply app_singleton_neq in Htask.
      * intros Hs. apply Hspec in Hs. discriminate.
  - intros Hno. rewrite Hrun. destruct (run_succeeded _ _); [|reflexivity].
    exfalso. now apply Hno, Hspec.
  - intros Hs. apply Hspec in Hs. unfold deliver. simpl. rewrite !Hrun, Hs. reflexivity.
Qed.

End WebhookProperties.

Section WebhookRuns.

Import Webhooks.

Lemma webhook_schedules_on_success_witness :
  well_shaped succeeded_run = true /\
  fst (apify_webhook succeeded_run []) = Return received /\
  length (deliver analysis_webhook [succeeded_run; succeeded_run]) = 2%nat.
Proof.
  split; [reflexivity|]. split.
  - apply (webhook_schedules_on_success succeeded_run [] eq_refl apify_webhook).
    now left.
  - apply (webhook_schedules_on_success succeeded_run [] eq_refl analysis_webhook).
    + now right.
    + split; [reflexivity|]. exists (PyStr "dataset-1"). split; reflexivity.
Defined.

(** C2 as stated fails twice. A body whose resource is [null] is not
    answered: the handler raises. A successful body whose
    defaultDatasetId is present but is the empty string is answered, and
    no fetch is scheduled. *)
Lemma webhook_counterexample :
  (fst (apify_webhook null_resource []) =
     Raise (PyExc "AttributeError" "object has no attribute 'get'") /\
   fst (analysis_webhook null_resource []) =
     Raise (PyExc "AttributeError" "object has no attribute 'get'")) /\
  (event_type_of empty_dataset_id = Some (PyStr "ACTOR.RUN.SUCCEEDED") /\
   default_dataset_id empty_dataset_id = Some (PyStr EmptyString) /\
   apify_webhook empty_dataset_id [] = (Return received, []) /\
   analysis_webhook empty_dataset_id [] = (Return received, [])).
Proof. repeat split. Qed.

End WebhookRuns.

(** ** start_analysis *)

Section StartAnalysisProperties.

Import AnalysisApi.
Context `{Runtime} {S : Type} (svc : AnalysisService S).

(** C8: a request with more than 10 URLs is refused with HTTP 400 and the
    detail "Max 10 URLs allowed per batch", and no analysis has been
    started; with at most 10 URLs every failure is an HTTP 500, as when the
    organization id is not a UUID. *)
Theorem start_analysis_errors (request : AnalyzeRequest) (w : World S) :
  ((10 < length (post_urls request))%nat ->
     start_analysis svc request w =
       (Raise (HTTPException 400 "Max 10 URLs allowed per batch"), w)) /\
  ((length (post_urls request) <= 10)%nat ->
     (forall e w', start_analysis svc request w = (Raise e, w') ->
        exists detail, e = HTTPException 500 detail) /\
     (forall e, uuid_parse (org_id request) = Raise e ->
        start_analysis svc request w = (Raise (HTTPException 500 (exn_str e)), w))).
Proof.
  unfold start_analysis. split.
  - intros Hlen. apply Nat.ltb_lt in Hlen. now rewrite Hlen.
  - intros Hlen. apply Nat.ltb_ge in Hlen. rewrite Hlen. split.
    + intros e w'. unfold stry, sraise.
      match goal with |- context [match ?body w with _ => _ end] =>
        destruct (body w) as [[started|e'] w''] end.
      * discriminate.
      * intros [= <- _]. now eexists.
    + intros e Hparse. unfold stry, sbind, lift, sraise. now rewrite Hparse.
Qed.

(** With at most 10 URLs and well-formed ids the service is called once,
    with the parsed ids, and its answer is the response. *)
Lemma start_analysis_calls_service (request : AnalyzeRequest) (w : World S)
    (org_uuid : UUID) (persona_uuid : option UUID) (started_ids : list string) (s' : S) :
  (length (post_urls request) <= 10)%nat ->
  uuid_parse (org_id request) = Return org_uuid ->
  parse_persona (persona_id request) = Return persona_uuid ->
  analyze_posts svc (post_urls request) org_uuid persona_uuid (service_state w)
    = (Return started_ids, s') ->
  start_analysis svc request w =
    (Return {| status := "started"; count := length started_ids; ids := started_ids |},
     {| service_state := s';
        analyses_started :=
          (analyses_started w ++ [(post_urls request, org_uuid, persona_uuid)])%list |}).
Proof.
  intros Hlen Horg Hpersona Hcall. unfold start_analysis.
  apply Nat.ltb_ge in Hlen. rewrite Hlen.
  unfold stry, sbind, lift, call_analyze_posts, sret.
  now rewrite Horg, Hpersona, Hcall.
Qed.

End StartAnalysisProperties.

Section StartAnalysisRuns.

Import AnalysisApi.

Lemma start_analysis_errors_witness :
  (10 < length (post_urls oversized_request))%nat /\
  @start_analysis Concrete.ascii_runtime unit echo_service oversized_request fresh_world =
    (Raise (HTTPException 400 "Max 10 URLs allowed per batch"), fresh_world) /\
  (length (post_urls malformed_org_request) <= 10)%nat /\
  @start_analysis Concrete.ascii_runtime unit echo_service malformed_org_request fresh_world =
    (Raise (HTTPException 500 "badly formed hexadecimal UUID string"), fresh_world).
Proof.
  split; [simpl; lia|]. split.
  - apply (@start_analysis_errors Concrete.ascii_runtime unit echo_service
             oversized_request fresh_world).
    simpl. lia.
  - split; [simpl; lia|].
    apply (proj2 (proj2 (@start_analysis_errors Concrete.ascii_runtime unit echo_service
                           malformed_org_request fresh_world) ltac:(simpl; lia))
             (PyExc "ValueError" "badly formed hexadecimal UUID string")).
    reflexivity.
Defined.

End StartAnalysisRuns.

(** ** get_analysis_results *)

Section ResultsProperties.

Import AnalysisApi.
Context `{Runtime} `{SqlEngine}.

Lemma StronglySorted_take {A} (R : relation A) (n : nat) (l : list A) :
  StronglySorted R l -> StronglySorted R (take n l).
Proof.
  intros Hs. revert n. induction Hs as [|x l Hs IH Hx]; intros [|n]; simpl;
    try constructor.
  - apply IH.
  - now apply Forall_take.
Qed.

Lemma sql_limit_returns {A} (n : Z) (rows limited : list A) :
  sql_limit n rows = Return limited ->
  0 <= n /\ limited = take (Z.to_nat n) rows.
Proof.
  unfold sql_limit. destruct (Z.ltb_spec n 0); [discriminate|].
  intros [= <-]. split; [lia | reflexivity].
Qed.

(** What the statement for the posts selects. *)
Lemma select_posts_spec (db : Database) (org_uuid : UUID) (limit : Z)
    (status : option string) (posts : list LinkedInPost.t) :
  select_posts db org_uuid limit status = Return posts ->
  0 <= limit /\
  (length posts <= Z.to_nat limit)%nat /\
  StronglySorted (fun p q => LinkedInPost.created_at q <= LinkedInPost.created_at p) posts /\
  Forall (fun p =>
            p ∈ linkedin_post db /\
            LinkedInPost.org_id p = org_uuid /\
            (forall s, status = Some s -> str_truthy s = true -> LinkedInPost.status p = s))
         posts.
Proof.
  unfold select_posts. intros Hsel. apply sql_limit_returns in Hsel as [Hlimit ->].
  split; [exact Hlimit|]. split; [rewrite length_take; lia|]. split.
  - apply StronglySorted_take, order_by_desc_sorted.
  - apply Forall_take. rewrite order_by_desc_perm.
    apply Forall_forall. intros p Hp.
    destruct status as [s|].
    + destruct (str_truthy s) eqn:Hs.
      * apply list_elem_of_filter in Hp as [Hst Hp].
        apply list_elem_of_filter in Hp as [Horg Hp].
        repeat split; [exact Hp | exact Horg |]. now intros s' [= <-] _.
      * apply list_elem_of_filter in Hp as [Horg Hp].
        repeat split; [exact Hp | exact Horg |]. intros s' [= <-]. congruence.
    + apply list_elem_of_filter in Hp as [Horg Hp].
      repeat split; [exact Hp | exact Horg |]. discriminate.
Qed.

(** What the statement for a post's interactions selects. *)
Lemma select_interactions_spec (db : Database) (post_id : UUID) :
  let rows := select_interactions db post_id in
  StronglySorted
    (fun i j => PostInteraction.relevance_score j <= PostInteraction.relevance_score i) rows /\
  rows ≡ₚ filter (fun i => PostInteraction.post_id i = post_id) (post_interaction db).
Proof.
  unfold select_interactions. split.
  - apply order_by_desc_sorted.
  - apply order_by_desc_perm.
Qed.

(** Counting the selected interactions that satisfy [P] is counting the
    post's rows in the table that do. *)
Lemma count_selected (db : Database) (post_id : UUID) (P : PostInteraction.t -> Prop)
    `{!forall i, Decision (P i)} :
  length (filter P (select_interactions db post_id)) =
  length (filter (fun i => PostInteraction.post_id i = post_id /\ P i) (post_interaction db)).
Proof.
  destruct (select_interactions_spec db post_id) as [_ Hperm]. cbv zeta in Hperm.
  rewrite Hperm, list_filter_filter. f_equal. apply list_filter_iff. tauto.
Qed.

(** A request the handler answers parsed its organization id and ran the
    statement for the posts. *)
Lemma get_analysis_results_returns (db : Database) (org_id : string) (limit : Z)
    (status : option string) (resp : Results) :
  get_analysis_results db org_id limit status = Return resp ->
  exists org_uuid posts,
    uuid_parse org_id = Return org_uuid /\
    select_posts db org_uuid limit status = Return posts /\
    results resp = result_item db <$> posts /\
    total resp = length (results resp).
Proof.
  unfold get_analysis_results.
  destruct (uuid_parse org_id) as [org_uuid|e]; [|discriminate]. simpl.
  destruct (select_posts db org_uuid limit status) as [posts|e] eqn:Hsel; [|discriminate].
  simpl. intros [= <-]. exists org_uuid, posts. simpl. repeat split; auto.
Qed.

Lemma str_truthy_spec (s : string) : str_truthy s = true <-> s <> EmptyString.
Proof.
  unfold str_truthy. rewrite negb_true_iff, String.eqb_neq. reflexivity.
Qed.

(** C7, as the code has it: every post of the results is a row of the
    requested organization, with the requested status when a non-empty
    status is given, and every interaction listed under a post is a row
    whose post_id is that post's id. *)
Theorem results_belong_to_organization (db : Database) (org_id : string) (limit : Z)
    (status : option string) (resp : Results) :
  get_analysis_results db org_id limit status = Return resp ->
  exists org_uuid posts,
    uuid_parse org_id = Return org_uuid /\
    Forall2
      (fun r p =>
         post r = post_view p /\
         p ∈ linkedin_post db /\
         LinkedInPost.org_id p = org_uuid /\
         (forall s, status = Some s -> s <> EmptyString -> LinkedInPost.status p = s) /\
         exists rows,
           interactions r = interaction_view <$> rows /\
           Forall (fun i => i ∈ post_interaction db /\
                            PostInteraction.post_id i = LinkedInPost.id p) rows)
      (results resp) posts.
Proof.
  intros Hret.
  apply get_analysis_results_returns in Hret as (org_uuid & posts & Hparse & Hsel & -> & _).
  exists org_uuid, posts. split; [exact Hparse|].
  apply select_posts_spec in Hsel as (_ & _ & _ & Hposts).
  apply Forall2_fmap_l, Forall_Forall2_diag.
  eapply Forall_impl; [exact Hposts|]. intros p (Hin & Horg & Hstatus). simpl.
  repeat split; [exact Hin | exact Horg | |].
  - intros s Hs Hne. apply (Hstatus s Hs). now apply str_truthy_spec.
  - exists (select_interactions db (LinkedInPost.id p)). split; [reflexivity|].
    destruct (select_interactions_spec db (LinkedInPost.id p)) as [_ Hperm].
    cbv zeta in Hperm. rewrite Hperm. apply Forall_forall. intros i Hi.
    apply list_elem_of_filter in Hi as [Hpost Hi]. now split.
Qed.

(** C9: the route answers at most [limit] posts, 20 when no limit is given
    and never with a limit above 100, newest first; under each post the
    interactions come by descending score; leads_created counts the post's
    interactions that have a lead_id, and high_value_count those whose
    classification is "high". *)
Theorem results_are_limited_and_ordered (db : Database) (org_id : string)
    (limit : option Z) (status : option string) (resp : Results) :
  results_route db org_id limit status = Return resp ->
  0 <= default 20%Z limit <= 100 /\
  (length (results resp) <= Z.to_nat (default 20%Z limit))%nat /\
  total resp = length (results resp) /\
  exists posts,
    StronglySorted (fun p q => LinkedInPost.created_at q <= LinkedInPost.created_at p) posts /\
    Forall2
      (fun r p =>
         post r = post_view p /\
         p ∈ linkedin_post db /\
         StronglySorted (fun a b => iv_score b <= iv_score a) (interactions r) /\
         leads_created r =
           length (filter (fun i => PostInteraction.post_id i = LinkedInPost.id p /\
                                    is_Some (PostInteraction.lead_id i))
                          (post_interaction db)) /\
         high_value_count r =
           length (filter (fun i => PostInteraction.post_id i = LinkedInPost.id p /\
                                    PostInteraction.classification i = "high")
                          (post_interaction db)))
      (results resp) posts.
Proof.
  unfold results_route. destruct (Z.leb_spec (default 20%Z limit) 100) as [Hcap|]; [|discriminate].
  intros Hret.
  apply get_analysis_results_returns in Hret as (org_uuid & posts & _ & Hsel & Hres & Htotal).
  apply select_posts_spec in Hsel as (Hlimit & Hlen & Hsorted & Hposts).
  split; [lia|]. split; [now rewrite Hres, length_fmap|]. split; [exact Htotal|].
  exists posts. split; [exact Hsorted|].
  rewrite Hres. apply Forall2_fmap_l, Forall_Forall2_diag.
  eapply Forall_impl; [exact Hposts|].
  intros p (Hin & _). simpl. split; [reflexivity|]. split; [exact Hin|]. split; [|split].
  - destruct (select_interactions_spec db (LinkedInPost.id p)) as [Hs _].
    eapply StronglySorted_fmap; [|exact Hs]. now intros i j.
  - apply count_selected.
  - apply count_selected.
Qed.

(** A limit above 100 does not reach the handler. *)
Lemma results_route_over_cap (db : Database) (org_id : string) (limit : Z)
    (status : option string) :
  100 < limit ->
  results_route db org_id (Some limit) status =
    Raise (HTTPException 422 "Input should be less than or equal to 100").
Proof.
  intros Hover. unfold results_route. simpl.
  now destruct (Z.leb_spec limit 100); [lia|].
Qed.

End ResultsProperties.

Section ResultsRuns.

Import AnalysisApi.

(** C7 as stated fails: with the status filter given as the empty string,
    the pending post of the organization is returned. *)
Lemma status_filter_counterexample :
  exists resp r,
    @get_analysis_results Concrete.ascii_runtime Concrete.merge_sort_engine
      Samples.db Samples.org1 20 (Some EmptyString) = Return resp /\
    r ∈ results resp /\
    pv_status (post r) = "pending" /\
    pv_status (post r) <> EmptyString.
Proof.
  eexists. eexists. split; [vm_compute; reflexivity|].
  split; [apply list_elem_of_further, list_elem_of_here|].
  split; [reflexivity | discriminate].
Qed.

Lemma results_belong_to_organization_witness :
  exists resp,
    @get_analysis_results Concrete.ascii_runtime Concrete.merge_sort_engine
      Samples.db Samples.org1 20 (Some "completed") = Return resp /\
    exists org_uuid posts,
      @uuid_parse Concrete.ascii_runtime Samples.org1 = Return org_uuid /\
      Forall2
        (fun r p =>
           post r = @post_view Concrete.ascii_runtime p /\
           p ∈ linkedin_post Samples.db /\
           LinkedInPost.org_id p = org_uuid /\
           (forall s, Some "completed" = Some s -> s <> EmptyString ->
                      LinkedInPost.status p = s) /\
           exists rows,
             interactions r = @interaction_view Concrete.ascii_runtime <$> rows /\
             Forall (fun i => i ∈ post_interaction Samples.db /\
                              PostInteraction.post_id i = LinkedInPost.id p) rows)
        (results resp) posts.
Proof.
  eexists. split.
  - vm_compute. reflexivity.
  - apply (@results_belong_to_organization Concrete.ascii_runtime Concrete.merge_sort_engine
             Samples.db Samples.org1 20 (Some "completed")).
    vm_compute. reflexivity.
Defined.

Lemma results_are_limited_and_ordered_witness :
  exists resp,
    @results_route Concrete.ascii_runtime Concrete.merge_sort_engine
      Samples.db Samples.org1 None None = Return resp /\
    (length (results resp) <= 20)%nat /\
    total resp = 2%nat.
Proof.
  eexists. split.
  - vm_compute. reflexivity.
  - pose proof (@results_are_limited_and_ordered Concrete.ascii_runtime
                  Concrete.merge_sort_engine Samples.db Samples.org1 None None _
                  ltac:(vm_compute; reflexivity)) as (_ & Hlen & Htotal & _).
    split; [exact Hlen | exact Htotal].
Defined.

End ResultsRuns.

(** ** update_status *)

Section CampaignRepoProperties.

Import CampaignRepo.

(** The timestamps a status sets, and the clock readings it takes. *)
Lemma set_timestamps_spec (status : string) (c : Campaign.t) (w : World) :
  exists c' n,
    set_timestamps status c w =
      (Return c', {| campaigns := campaigns w; clock := clock w; ticks := (n + ticks w)%nat |}) /\
    Campaign.status c' = Campaign.status c /\
    Campaign.updated_at c' = Campaign.updated_at c /\
    Campaign.same_counters c c' /\
    (status = "active" ->
       Campaign.started_at c' =
         match Campaign.started_at c with
         | Some t => Some t
         | None => Some (clock w (ticks w))
         end /\
       Campaign.paused_at c' = None /\
       Campaign.last_resumed_at c' =
         Some (clock w (match Campaign.started_at c with
                       | Some _ => ticks w
                       | None => S (ticks w)
                       end)) /\
       Campaign.completed_at c' = Campaign.completed_at c) /\
    (status = "paused" ->
       Campaign.started_at c' = Campaign.started_at c /\
       Campaign.paused_at c' = Some (clock w (ticks w)) /\
       Campaign.last_resumed_at c' = Campaign.last_resumed_at c /\
       Campaign.completed_at c' = Campaign.completed_at c) /\
    (status = "completed" ->
       Campaign.started_at c' = Campaign.started_at c /\
       Campaign.paused_at c' = Campaign.paused_at c /\
       Campaign.last_resumed_at c' = Campaign.last_resumed_at c /\
       Campaign.completed_at c' = Some (clock w (ticks w))) /\
    (status <> "active" -> status <> "paused" -> status <> "completed" -> c' = c).
Proof.
  unfold set_timestamps.
  destruct (String.eqb_spec status "active") as [->|Hactive].
  - destruct (Campaign.started_at c) as [t|] eqn:Hstarted.
    + eexists _, 1%nat. split.
      { reflexivity. }
      simpl. rewrite Hstarted. repeat split; discriminate || congruence.
    + eexists _, 2%nat. split.
      { reflexivity. }
      simpl. repeat split; discriminate || congruence.
  - destruct (String.eqb_spec status "paused") as [->|Hpaused].
    + eexists _, 1%nat. split.
      { reflexivity. }
      simpl. repeat split; discriminate || congruence.
    + destruct (String.eqb_spec status "completed") as [->|Hcompleted].
      * eexists _, 1%nat. split.
        { reflexivity. }
        simpl. repeat split; discriminate || congruence.
      * exists c, 0%nat. split.
        { now destruct w. }
        repeat split; congruence.
Qed.

(** The two ways through [update_status]. *)
Lemma update_status_missing (campaign_id : UUID) (status : string) (w : World) :
  campaigns w !! campaign_id = None ->
  update_status campaign_id status w = (Return None, w).
Proof.
  intros Hfound. unfold update_status, sbind, get. cbv beta iota.
  now rewrite Hfound.
Qed.

Lemma update_status_found (campaign_id : UUID) (status : string) (w : World)
    (c c' : Campaign.t) (w2 : World) :
  campaigns w !! campaign_id = Some c ->
  set_timestamps status
    (Campaign.set_updated_at (Some (clock w (ticks w))) (Campaign.set_status status c))
    {| campaigns := campaigns w; clock := clock w; ticks := S (ticks w) |}
    = (Return c', w2) ->
  update_status campaign_id status w =
    (Return (Some c'),
     {| campaigns := <[campaign_id := c']> (campaigns w2);
        clock := clock w2; ticks := ticks w2 |}).
Proof.
  intros Hfound Hrun. unfold update_status, sbind, get. cbv beta iota.
  rewrite Hfound. cbn [utcnow]. cbv beta iota. rewrite Hrun.
  unfold add_commit, refresh, sret. cbn [campaigns clock ticks].
  now rewrite lookup_insert_eq.
Qed.

(** C10: [update_status] answers [None] and leaves everything as it was
    when there is no such campaign. Otherwise the row becomes the returned
    campaign, with the new status and a new updated_at; started_at is kept
    once set, and is assigned only by "active" on a campaign that had none;
    "active" also clears paused_at and sets last_resumed_at, "paused" sets
    paused_at, "completed" sets completed_at, and any other status leaves
    the four timestamps alone. The other columns never change. *)
Theorem update_status_timestamps (campaign_id : UUID) (status : string) (w : World) :
  let result := fst (update_status campaign_id status w) in
  let w' := snd (update_status campaign_id status w) in
  let now := clock w (S (ticks w)) in
  match campaigns w !! campaign_id with
  | None => result = Return None /\ w' = w
  | Some c =>
      exists c',
        result = Return (Some c') /\
        campaigns w' = <[campaign_id := c']> (campaigns w) /\
        Campaign.status c' = status /\
        Campaign.updated_at c' = Some (clock w (ticks w)) /\
        Campaign.same_counters c c' /\
        (is_Some (Campaign.started_at c) ->
           Campaign.started_at c' = Campaign.started_at c) /\
        (Campaign.started_at c' <> Campaign.started_at c ->
           status = "active" /\ Campaign.started_at c = None) /\
        (status = "active" ->
           (Campaign.started_at c = None -> Campaign.started_at c' = Some now) /\
           Campaign.paused_at c' = None /\
           Campaign.last_resumed_at c' =
             Some (match Campaign.started_at c with
                   | Some _ => now
                   | None => clock w (S (S (ticks w)))
                   end) /\
           Campaign.completed_at c' = Campaign.completed_at c) /\
        (status = "paused" ->
           Campaign.paused_at c' = Some now /\
           Campaign.last_resumed_at c' = Campaign.last_resumed_at c /\
           Campaign.completed_at c' = Campaign.completed_at c) /\
        (status = "completed" ->
           Campaign.completed_at c' = Some now /\
           Campaign.paused_at c' = Campaign.paused_at c /\
           Campaign.last_resumed_at c' = Campaign.last_resumed_at c) /\
        (status <> "active" -> status <> "paused" -> status <> "completed" ->
           Campaign.started_at c' = Campaign.started_at c /\
           Campaign.paused_at c' = Campaign.paused_at c /\
           Campaign.last_resumed_at c' = Campaign.last_resumed_at c /\
           Campaign.completed_at c' = Campaign.completed_at c)
  end.
Proof.
  intros result w' now. subst result w' now.
  destruct (campaigns w !! campaign_id) as [c|] eqn:Hfound.
  2: { now rewrite (update_status_missing campaign_id status w Hfound). }
  set (w1 := {| campaigns := campaigns w; clock := clock w; ticks := S (ticks w) |}).
  set (c1 := Campaign.set_updated_at (Some (clock w (ticks w)))
               (Campaign.set_status status c)).
  destruct (set_timestamps_spec status c1 w1)
    as (c' & n & Hrun & Hstatus & Hupdated & Hsame & Hactive & Hpaused & Hcompleted & Hother).
  rewrite (update_status_found campaign_id status w c c' _ Hfound Hrun).
  cbn [fst snd campaigns].
  exists c'. split; [reflexivity|]. split; [reflexivity|].
  split; [now rewrite Hstatus|]. split; [now rewrite Hupdated|].
  split; [exact Hsame|].
  assert (Hkept : is_Some (Campaign.started_at c) ->
                  Campaign.started_at c' = Campaign.started_at c).
  { intros [t Ht].
    destruct (String.eqb_spec status "active") as [Ha|Ha].
    - destruct (Hactive Ha) as (Hs & _). rewrite Hs. subst c1. simpl. now rewrite Ht.
    - destruct (String.eqb_spec status "paused") as [Hp|Hp].
      + now destruct (Hpaused Hp) as (Hs & _).
      + destruct (String.eqb_spec status "completed") as [Hc|Hc].
        * now destruct (Hcompleted Hc) as (Hs & _).
        * now rewrite (Hother Ha Hp Hc). }
  split; [exact Hkept|]. split; [|split; [|split; [|split]]].
  - intros Hchanged.
    destruct (Campaign.started_at c) as [t|] eqn:Ht.
    { exfalso. apply Hchanged, Hkept. now eexists. }
    split; [|reflexivity].
    destruct (String.eqb_spec status "active") as [Ha|Ha]; [exact Ha|].
    exfalso. apply Hchanged.
    destruct (String.eqb_spec status "paused") as [Hp|Hp].
    + destruct (Hpaused Hp) as (Hs & _). rewrite Hs. subst c1. simpl. exact Ht.
    + destruct (String.eqb_spec status "completed") as [Hc|Hc].
      * destruct (Hcompleted Hc) as (Hs & _). rewrite Hs. subst c1. simpl. exact Ht.
      * rewrite (Hother Ha Hp Hc). subst c1. simpl. exact Ht.
  - intros Ha. destruct (Hactive Ha) as (Hs & Hp & Hr & Hc). subst c1 w1.
    simpl in Hs, Hr, Hc. repeat split.
    + intros Hnone. now rewrite Hs, Hnone.
    + exact Hp.
    + rewrite Hr. now destruct (Campaign.started_at c).
    + exact Hc.
  - intros Hp. destruct (Hpaused Hp) as (_ & Hp' & Hr & Hc). subst c1 w1.
    simpl in Hp', Hr, Hc. now repeat split.
  - intros Hc. destruct (Hcompleted Hc) as (_ & Hp & Hr & Hc'). subst c1 w1.
    simpl in Hp, Hr, Hc'. now repeat split.
  - intros Ha Hp Hc. rewrite (Hother Ha Hp Hc). subst c1. simpl. now repeat split.
Qed.

End CampaignRepoProperties.

Section CampaignRepoRuns.

Import CampaignRepo.

Lemma update_status_timestamps_witness :
  campaigns world !! 1%N = Some draft /\
  exists c',
    fst (update_status 1%N "active" world) = Return (Some c') /\
    Campaign.started_at c' = Some 1001 /\
    Campaign.paused_at c' = None /\
    Campaign.last_resumed_at c' = Some 1002.
Proof.
  assert (Hrow : campaigns world !! 1%N = Some draft) by reflexivity.
  split; [exact Hrow|].
  pose proof (update_status_timestamps 1%N "active" world) as Hupdate.
  cbv zeta in Hupdate. rewrite Hrow in Hupdate.
  destruct Hupdate as (c' & Hresult & _ & _ & _ & _ & _ & _ & Hactive & _).
  destruct (Hactive eq_refl) as (Hstarted & Hpaused & Hresumed & _).
  exists c'. split; [exact Hresult|]. split; [exact (Hstarted eq_refl)|].
  split; [exact Hpaused | exact Hresumed].
Defined.

End CampaignRepoRuns.

(** * Further properties of the code *)

(** ** The fallback and the answers of the model *)

Section FallbackProperties.

Import AIAnalysisService.
Context `{Runtime}.

Lemma string_append_assoc (a b c : string) : (a ++ b) ++ c = a ++ b ++ c.
Proof.
  induction a as [|x a IH]; [reflexivity|]. exact (f_equal (String x) IH).
Qed.

Lemma contains_trans (a b c : string) : contains a b -> contains b c -> contains a c.
Proof.
  intros (before & after & ->) (before' & after' & ->).
  exists (before' ++ before), (after ++ after').
  now rewrite !string_append_assoc.
Qed.

(** A headline with "Vice President" in it is ranked C-level, not VP: the
    "President" test comes first and matches. *)
Theorem vice_president_is_c_level (headline : string) :
  contains "Vice President" headline ->
  field_of (_fallback_evaluation headline) "seniority_level" = Some (PyStr "C-level").
Proof.
  intros Hvp.
  assert (Hpresident : contains "President" headline).
  { apply contains_trans with "Vice President"; [|exact Hvp].
    apply str_in_spec. reflexivity. }
  destruct (fallback_fields headline) as (Hsen & _). cbv zeta in Hsen. rewrite Hsen.
  assert (Hany : any_in ["CEO"; "Founder"; "President"] headline = true).
  { apply any_in_spec. do 2 apply Exists_cons_tl. now apply Exists_cons_hd. }
  now rewrite Hany.
Qed.

(** So the rank VP is given on the strength of "VP" alone. *)
Theorem vp_rank_needs_vp (headline : string) :
  field_of (_fallback_evaluation headline) "seniority_level" = Some (PyStr "VP") ->
  contains "VP" headline /\
  ~ contains "CEO" headline /\ ~ contains "Founder" headline /\
  ~ contains "President" headline.
Proof.
  destruct (fallback_fields headline) as (Hsen & _). cbv zeta in Hsen. rewrite Hsen.
  destruct (any_in ["CEO"; "Founder"; "President"] headline) eqn:Hc; [discriminate|].
  apply any_in_false in Hc.
  destruct (any_in ["VP"; "Vice President"] headline) eqn:Hv.
  - intros _. apply any_in_spec in Hv.
    assert (Hno : forall x, x ∈ ["CEO"; "Founder"; "President"] -> ~ contains x headline).
    { intros x Hx Hcontains. apply Hc, Exists_exists. eauto. }
    split.
    + apply Exists_cons in Hv as [Hv | Hv]; [exact Hv|].
      apply Exists_cons in Hv as [Hv | Hv]; [|inversion Hv].
      exfalso. apply (Hno "President"); [set_solver|].
      apply contains_trans with "Vice President"; [|exact Hv].
      apply str_in_spec. reflexivity.
    + repeat split; apply Hno; set_solver.
  - destruct (str_in "Director" headline); [discriminate|].
    destruct (str_in "Manager" headline); discriminate.
Qed.

(** The fields of the fallback the rules for rank and score leave out: the
    profile is a company exactly for a headline with "Company" or "Ltd";
    the industry never matches and the intent is always medium. *)
Theorem fallback_profile_type (headline : string) :
  let r := _fallback_evaluation headline in
  (contains "Company" headline \/ contains "Ltd" headline <->
     field_of r "profile_type" = Some (PyStr "company")) /\
  (~ (contains "Company" headline \/ contains "Ltd" headline) <->
     field_of r "profile_type" = Some (PyStr "individual")) /\
  field_of r "industry_match" = Some (PyBool false) /\
  field_of r "intent_from_comment" = Some (PyStr "medium").
Proof.
  intros r. subst r. unfold _fallback_evaluation.
  rewrite <- !str_in_spec, <- orb_true_iff.
  generalize (any_in ["student"; "recruiter"; "intern"] (str_lower headline)) as excluded.
  generalize (str_in "Company" headline || str_in "Ltd" headline) as company.
  generalize (if any_in ["CEO"; "Founder"; "President"] headline then "C-level"
              else if any_in ["VP"; "Vice President"] headline then "VP"
              else if str_in "Director" headline then "Director"
              else if str_in "Manager" headline then "Manager" else "IC") as seniority.
  intros seniority [|] excluded; cbv zeta.
  - repeat split; try reflexivity; try discriminate. intros Hno. now contradiction Hno.
  - repeat split; try reflexivity; try discriminate.
Qed.

(** What the model answers is what the caller gets: when the call returns
    and the content of its first choice parses, [evaluate_profile] returns
    the parsed value as it is, whatever its shape, and reads no other
    choice. *)
Theorem evaluate_profile_returns_answer (self : t) (c : Client)
    (name headline comment_text : string) (persona_definition : gmap string pyval)
    (content : string) (others : ChatResponse) (answer : pyval) :
  client self = Some c ->
  chat_completions_create c
    (chat_request self (profile_prompt name headline comment_text persona_definition) (2 # 10))
    = Return (Some content :: others) ->
  json_loads content = Return answer ->
  evaluate_profile self name headline comment_text persona_definition = Return answer.
Proof.
  intros Hclient Hcall Hparse. unfold evaluate_profile, ask. rewrite Hclient, Hcall.
  unfold parse_response. simpl. now rewrite Hparse.
Qed.

(** The same for [analyze_post_content]. *)
Theorem analyze_post_content_returns_answer (self : t) (c : Client)
    (post_text customer_product : string)
    (content : string) (others : ChatResponse) (answer : pyval) :
  client self = Some c ->
  chat_completions_create c (chat_request self (post_prompt post_text customer_product) (3 # 10))
    = Return (Some content :: others) ->
  json_loads content = Return answer ->
  analyze_post_content self post_text customer_product = Return answer.
Proof.
  intros Hclient Hcall Hparse. unfold analyze_post_content, ask. rewrite Hclient, Hcall.
  unfold parse_response. simpl. now rewrite Hparse.
Qed.

(** A service built without an API key, or with the empty one, never calls
    a model: every profile gets the fallback and every post the unknown
    analysis. With a non-empty key the client is the one built from it. *)
Theorem init_without_key (OpenAI : string -> Client) (key : option string) (AI_MODEL : string) :
  let self := init OpenAI key AI_MODEL in
  (key = None \/ key = Some EmptyString ->
     (forall name headline comment_text persona_definition,
        evaluate_profile self name headline comment_text persona_definition =
          Return (_fallback_evaluation headline)) /\
     (forall post_text customer_product,
        exists r, analyze_post_content self post_text customer_product = Return r /\
                  unknown_analysis r)) /\
  (forall k, key = Some k -> k <> EmptyString -> client self = Some (OpenAI k)).
Proof.
  intros self. subst self. split.
  - intros Hkey.
    assert (Hnone : client (init OpenAI key AI_MODEL) = None).
    { destruct Hkey as [-> | ->]; reflexivity. }
    split.
    + intros. unfold evaluate_profile. now rewrite Hnone.
    + intros. unfold analyze_post_content. rewrite Hnone.
      eexists. split; [reflexivity|]. repeat split.
  - intros k -> Hk. simpl. apply str_truthy_spec in Hk. now rewrite Hk.
Qed.

End FallbackProperties.

Section FallbackRuns.

Import AIAnalysisService.

Lemma vice_president_is_c_level_witness :
  contains "Vice President" "Vice President, Sales" /\
  field_of (@_fallback_evaluation Concrete.ascii_runtime "Vice President, Sales")
    "seniority_level" = Some (PyStr "C-level").
Proof.
  assert (Hvp : contains "Vice President" "Vice President, Sales")
    by (apply str_in_spec; reflexivity).
  split; [exact Hvp|].
  exact (@vice_president_is_c_level Concrete.ascii_runtime "Vice President, Sales" Hvp).
Defined.

Lemma vp_rank_needs_vp_witness :
  field_of (@_fallback_evaluation Concrete.ascii_runtime "SVP Marketing")
    "seniority_level" = Some (PyStr "VP") /\
  contains "VP" "SVP Marketing".
Proof.
  split; [reflexivity|].
  apply (@vp_rank_needs_vp Concrete.ascii_runtime "SVP Marketing"). reflexivity.
Defined.

Lemma fallback_profile_type_witness :
  contains "Ltd" "Acme Ltd" /\
  field_of (@_fallback_evaluation Concrete.ascii_runtime "Acme Ltd") "profile_type"
    = Some (PyStr "company").
Proof.
  assert (Hltd : contains "Ltd" "Acme Ltd") by (apply str_in_spec; reflexivity).
  split; [exact Hltd|].
  apply (@fallback_profile_type Concrete.ascii_runtime "Acme Ltd"). now right.
Defined.

Lemma evaluate_profile_returns_answer_witness :
  let self := {| client := Some (constant_client (Some "{}")); ai_model := "gpt-4o-mini" |} in
  client self = Some (constant_client (Some "{}")) /\
  @json_loads Concrete.ascii_runtime "{}" = Return (PyDict ∅) /\
  @evaluate_profile Concrete.ascii_runtime self "Ada" "CEO" "Nice post" ∅ = Return (PyDict ∅).
Proof.
  intros self. split; [reflexivity|]. split; [reflexivity|].
  apply (@evaluate_profile_returns_answer Concrete.ascii_runtime self
           (constant_client (Some "{}")) "Ada" "CEO" "Nice post" ∅ "{}" []);
    reflexivity.
Defined.

Lemma analyze_post_content_returns_answer_witness :
  let self := {| client := Some (constant_client (Some "{}")); ai_model := "gpt-4o-mini" |} in
  client self = Some (constant_client (Some "{}")) /\
  @json_loads Concrete.ascii_runtime "{}" = Return (PyDict ∅) /\
  @analyze_post_content Concrete.ascii_runtime self "We need a CRM" "CRM" = Return (PyDict ∅).
Proof.
  intros self. split; [reflexivity|]. split; [reflexivity|].
  apply (@analyze_post_content_returns_answer Concrete.ascii_runtime self
           (constant_client (Some "{}")) "We need a CRM" "CRM" "{}" []);
    reflexivity.
Defined.

Lemma init_without_key_witness :
  @evaluate_profile Concrete.ascii_runtime
    (init (fun _ => failing_client) (Some EmptyString) "gpt-4o-mini")
    "Ada" "Director of Sales" "Nice post" ∅ =
  Return (@_fallback_evaluation Concrete.ascii_runtime "Director of Sales").
Proof.
  pose proof (@init_without_key Concrete.ascii_runtime (fun _ => failing_client)
                (Some EmptyString) "gpt-4o-mini") as Hinit.
  cbv zeta in Hinit. destruct Hinit as [Hunset _].
  destruct (Hunset (or_intror eq_refl)) as [Hprofile _]. apply Hprofile.
Defined.

End FallbackRuns.

(** ** What the webhook handlers hand to the background *)

Section WebhookTaskProperties.

Import Webhooks.

Lemma read_payload_value (payload : pyval) :
  well_shaped payload = true ->
  read_payload payload =
    Return (default PyNone (event_type_of payload), run_id_of payload,
            default PyNone (default_dataset_id payload)).
Proof.
  destruct payload as [| | | | | |d]; try discriminate.
  unfold read_payload. cbn [well_shaped event_type_of default_dataset_id run_id_of get bind].
  destruct (d !! "resource") as [[| | | | | |r]|]; try discriminate; intros _.
  - reflexivity.
  - cbn. now rewrite !lookup_empty.
Qed.

Lemma read_payload_attribute_error (payload : pyval) :
  well_shaped payload = false ->
  read_payload payload = Raise (PyExc "AttributeError" "object has no attribute 'get'").
Proof.
  destruct payload as [| | | | | |d]; try reflexivity.
  unfold read_payload. cbn [well_shaped get bind].
  destruct (d !! "resource") as [[| | | | | |r]|]; try discriminate; reflexivity.
Qed.

(** Both handlers, in one equation per shape of payload. *)
Lemma handler_well_shaped (payload : pyval) (bt : BackgroundTasks) :
  well_shaped payload = true ->
  let added name :=
    if run_succeeded (default PyNone (event_type_of payload))
                     (default PyNone (default_dataset_id payload))
    then add_task bt name [default PyNone (default_dataset_id payload); run_id_of payload]
    else bt in
  apify_webhook payload bt = (Return received, added "process_apify_dataset") /\
  analysis_webhook payload bt = (Return received, added "analysis_service.process_webhook").
Proof.
  intros Hshape. unfold apify_webhook, analysis_webhook.
  rewrite (read_payload_value payload Hshape). split; now destruct (run_succeeded _ _).
Qed.

Lemma handler_ill_shaped (payload : pyval) (bt : BackgroundTasks) :
  well_shaped payload = false ->
  apify_webhook payload bt =
    (Raise (PyExc "AttributeError" "object has no attribute 'get'"), bt) /\
  analysis_webhook payload bt =
    (Raise (PyExc "AttributeError" "object has no attribute 'get'"), bt).
Proof.
  intros Hshape. unfold apify_webhook, analysis_webhook.
  now rewrite (read_payload_attribute_error payload Hshape).
Qed.

(** The task a successful delivery adds is the fetch of the payload's own
    dataset for the payload's own run: its arguments are
    resource.defaultDatasetId and resource.id ([None] when the run has no
    id), in this order, and it goes after the tasks already there. *)
Theorem webhook_task_arguments (payload dataset_id : pyval) (bt : BackgroundTasks) :
  well_shaped payload = true ->
  event_type_of payload = Some (PyStr "ACTOR.RUN.SUCCEEDED") ->
  default_dataset_id payload = Some dataset_id ->
  truthy dataset_id = true ->
  apify_webhook payload bt =
    (Return received,
     (bt ++ [ {| func := "process_apify_dataset";
                 args := [dataset_id; run_id_of payload] |} ])%list) /\
  analysis_webhook payload bt =
    (Return received,
     (bt ++ [ {| func := "analysis_service.process_webhook";
                 args := [dataset_id; run_id_of payload] |} ])%list).
Proof.
  intros Hshape Hevent Hdataset Htruthy.
  destruct (handler_well_shaped payload bt Hshape) as [Hapify Hanalysis].
  cbv zeta in Hapify, Hanalysis. rewrite Hapify, Hanalysis.
  assert (Hrun : run_succeeded (default PyNone (event_type_of payload))
                               (default PyNone (default_dataset_id payload)) = true).
  { apply run_succeeded_spec. split; [exact Hevent | now exists dataset_id]. }
  rewrite Hrun, Hdataset. split; reflexivity.
Qed.

(** A handler answers exactly the payloads that are objects whose resource,
    when present, is an object; on every other payload it raises
    [AttributeError] and adds no task. *)
Theorem webhook_raises_iff_ill_shaped (payload : pyval) (bt : BackgroundTasks) :
  forall handler, handler = apify_webhook \/ handler = analysis_webhook ->
    (well_shaped payload = true <-> (handler payload bt).1 = Return received) /\
    (well_shaped payload = false <->
       handler payload bt =
         (Raise (PyExc "AttributeError" "object has no attribute 'get'"), bt)).
Proof.
  intros handler Hhandler.
  destruct (well_shaped payload) eqn:Hshape.
  - destruct (handler_well_shaped payload bt Hshape) as [Hapify Hanalysis].
    cbv zeta in Hapify, Hanalysis.
    destruct Hhandler as [-> | ->].
    + rewrite Hapify. simpl. split; split; try discriminate; auto.
    + rewrite Hanalysis. simpl. split; split; try discriminate; auto.
  - destruct (handler_ill_shaped payload bt Hshape) as [Hapify Hanalysis].
    destruct Hhandler as [-> | ->].
    + rewrite Hapify. simpl. split; split; try discriminate; auto.
    + rewrite Hanalysis. simpl. split; split; try discriminate; auto.
Qed.

(** The deliveries are counted, not compared: the number of fetches
    scheduled over any sequence of deliveries is the number of its payloads
    that announce a success with a usable dataset id, repeats included; [n]
    deliveries of one such payload schedule [n] fetches. *)
Theorem deliveries_are_counted (payloads : list pyval) :
  forall handler, handler = apify_webhook \/ handler = analysis_webhook ->
    length (deliver handler payloads) =
      length (filter (fun p => schedules p = true) payloads) /\
    (forall p n, schedules p = true -> length (deliver handler (replicate n p)) = n).
Proof.
  intros handler Hhandler.
  assert (Hone : forall p, length (handler p []).2 = if schedules p then 1%nat else 0%nat).
  { intros p. unfold schedules. destruct (well_shaped p) eqn:Hshape.
    - destruct (handler_well_shaped p [] Hshape) as [Hapify Hanalysis].
      cbv zeta in Hapify, Hanalysis.
      destruct Hhandler as [-> | ->]; [rewrite Hapify | rewrite Hanalysis];
        simpl; now destruct (run_succeeded _ _).
    - destruct (handler_ill_shaped p [] Hshape) as [Hapify Hanalysis].
      destruct Hhandler as [-> | ->]; [rewrite Hapify | rewrite Hanalysis]; reflexivity. }
  assert (Hcount : forall ps,
    length (deliver handler ps) = length (filter (fun p => schedules p = true) ps)).
  { induction ps as [|p ps IH]; [reflexivity|].
    unfold deliver in *. simpl. rewrite length_app, IH, Hone.
    destruct (schedules p) eqn:Hp.
    - now rewrite filter_cons_True by exact Hp.
    - rewrite filter_cons_False; [reflexivity|]. congruence. }
  split; [apply Hcount|].
  intros p n Hp. rewrite Hcount.
  induction n as [|n IH]; [reflexivity|].
  simpl. rewrite filter_cons_True by exact Hp. simpl. now rewrite IH.
Qed.

End WebhookTaskProperties.

Section WebhookTaskRuns.

Import Webhooks.

Lemma webhook_task_arguments_witness :
  well_shaped succeeded_run = true /\
  apify_webhook succeeded_run [] =
    (Return received,
     [ {| func := "process_apify_dataset";
          args := [PyStr "dataset-1"; PyStr "run-1"] |} ]).
Proof.
  split; [reflexivity|].
  apply (webhook_task_arguments succeeded_run (PyStr "dataset-1") []); reflexivity.
Defined.

Lemma webhook_raises_iff_ill_shaped_witness :
  well_shaped (PyList []) = false /\
  analysis_webhook (PyList []) [] =
    (Raise (PyExc "AttributeError" "object has no attribute 'get'"), []).
Proof.
  split; [reflexivity|].
  apply (webhook_raises_iff_ill_shaped (PyList []) [] analysis_webhook); [now right|].
  reflexivity.
Defined.

Lemma deliveries_are_counted_witness :
  schedules succeeded_run = true /\
  length (deliver apify_webhook (replicate 3 succeeded_run)) = 3%nat.
Proof.
  split; [reflexivity|].
  apply (deliveries_are_counted [] apify_webhook); [now left | reflexivity].
Defined.

End WebhookTaskRuns.

(** ** trigger_scrape *)

Section TriggerScrapeProperties.

Import ApifyApi.
Context {S : Type} (svc : ApifyService S).

Lemma subscript_returns (obj : pyval) (key : string) (v : pyval) :
  subscript obj key = Return v <-> exists d, obj = PyDict d /\ d !! key = Some v.
Proof.
  destruct obj as [| | | | | |d]; simpl;
    try (split; [discriminate | intros (d' & Hd & _); discriminate]).
  destruct (d !! key) as [x|] eqn:Hkey.
  - split.
    + intros [= ->]. now exists d.
    + intros (d' & [= <-] & Hv). congruence.
  - split; [discriminate|]. intros (d' & [= <-] & Hv). congruence.
Qed.

(** The handler answers only what the service returned, and only when
    that is a dict whose "success" entry is true: a failed run is never
    answered as a body. *)
Theorem trigger_scrape_answers_successes (request : ScrapeRequest) (s s' : S) (body : pyval) :
  trigger_scrape svc request s = (Answer body, s') <->
  run_actor svc (actor_id request) (run_input request) s = (Return body, s') /\
  exists d success,
    body = PyDict d /\ d !! "success" = Some success /\ truthy success = true.
Proof.
  unfold trigger_scrape.
  destruct (run_actor svc (actor_id request) (run_input request) s) as [[result|e] s1].
  - destruct (subscript result "success") as [success|e] eqn:Hsuccess.
    + apply subscript_returns in Hsuccess as (d & -> & Hd).
      destruct (truthy success) eqn:Htruthy; simpl.
      * split.
        -- intros [= <- <-]. split; [reflexivity|]. now exists d, success.
        -- intros [[= <- <-] _]. reflexivity.
      * split.
        -- destruct (d !! "error"); discriminate.
        -- intros [[= <- <-] (d' & success' & [= <-] & Hd' & Htruthy')]. congruence.
    + split; [discriminate|].
      intros [[= <- <-] (d & success & -> & Hd & _)].
      assert (Hret : subscript (PyDict d) "success" = Return success)
        by (apply subscript_returns; eauto).
      congruence.
  - split; [discriminate | intros [[=] _]].
Qed.

(** A run the service reports as failed ends in HTTP 500 whose detail is
    the "error" entry of the result, whatever kind of value that is; when
    the result has no such entry the handler itself fails with [KeyError].
    What the service did stays done. *)
Theorem trigger_scrape_reports_failures (request : ScrapeRequest) (s s' : S)
    (d : gmap string pyval) (success : pyval) :
  run_actor svc (actor_id request) (run_input request) s = (Return (PyDict d), s') ->
  d !! "success" = Some success ->
  truthy success = false ->
  trigger_scrape svc request s =
    (match d !! "error" with
     | Some error => HTTPError 500 error
     | None => Unhandled (PyExc "KeyError" "'error'")
     end, s').
Proof.
  intros Hrun Hsuccess Htruthy. unfold trigger_scrape. rewrite Hrun. simpl.
  rewrite Hsuccess, Htruthy. simpl. now destruct (d !! "error").
Qed.

End TriggerScrapeProperties.

Section TriggerScrapeRuns.

Import ApifyApi.

Lemma trigger_scrape_answers_successes_witness :
  let svc := {| run_actor := fun _ _ => sret (PyDict {[ "success" := PyBool true ]}) |} in
  @trigger_scrape unit svc linkedin_scrape tt =
    (Answer (PyDict {[ "success" := PyBool true ]}), tt).
Proof.
  intros svc.
  apply (trigger_scrape_answers_successes svc linkedin_scrape tt tt). split; [reflexivity|].
  exists {[ "success" := PyBool true ]}, (PyBool true). repeat split.
Defined.

Lemma trigger_scrape_reports_failures_witness :
  truthy (PyBool false) = false /\
  trigger_scrape out_of_quota linkedin_scrape tt = (HTTPError 500 (PyStr "quota exceeded"), tt).
Proof.
  split; [reflexivity|].
  exact (trigger_scrape_reports_failures out_of_quota linkedin_scrape tt tt
           (<[ "success" := PyBool false ]> {[ "error" := PyStr "quota exceeded" ]})
           (PyBool false) eq_refl eq_refl eq_refl).
Defined.

End TriggerScrapeRuns.

(** ** More on start_analysis *)

Section StartAnalysisServiceProperties.

Import AnalysisApi.
Context `{Runtime} {S : Type} (svc : AnalysisService S).

(** When the service itself fails, the failure is answered as HTTP 500
    with the text of the exception; the call was made and is not undone:
    the service keeps the state it failed in. *)
Theorem start_analysis_service_failure (request : AnalyzeRequest) (w : World S)
    (org_uuid : UUID) (persona_uuid : option UUID) (e : exn) (s' : S) :
  (length (post_urls request) <= 10)%nat ->
  uuid_parse (org_id request) = Return org_uuid ->
  parse_persona (persona_id request) = Return persona_uuid ->
  analyze_posts svc (post_urls request) org_uuid persona_uuid (service_state w) = (Raise e, s') ->
  start_analysis svc request w =
    (Raise (HTTPException 500 (exn_str e)),
     {| service_state := s';
        analyses_started :=
          (analyses_started w ++ [(post_urls request, org_uuid, persona_uuid)])%list |}).
Proof.
  intros Hlen Horg Hpersona Hcall. unfold start_analysis.
  apply Nat.ltb_ge in Hlen. rewrite Hlen.
  unfold stry, sbind, lift, call_analyze_posts, sraise.
  now rewrite Horg, Hpersona, Hcall.
Qed.

(** An ill-formed persona id stops the request before the service is
    called, while an empty one is no persona at all. *)
Theorem start_analysis_persona_id (request : AnalyzeRequest) (w : World S) (org_uuid : UUID) :
  (length (post_urls request) <= 10)%nat ->
  uuid_parse (org_id request) = Return org_uuid ->
  (forall p e, persona_id request = Some p -> p <> EmptyString -> uuid_parse p = Raise e ->
     start_analysis svc request w = (Raise (HTTPException 500 (exn_str e)), w)) /\
  (persona_id request = None \/ persona_id request = Some EmptyString ->
     analyses_started (start_analysis svc request w).2 =
       (analyses_started w ++ [(post_urls request, org_uuid, None)])%list).
Proof.
  intros Hlen Horg. apply Nat.ltb_ge in Hlen. split.
  - intros p e Hp Hne Hparse. unfold start_analysis. rewrite Hlen.
    unfold stry, sbind, lift, sraise. rewrite Horg. unfold parse_persona. rewrite Hp.
    apply str_truthy_spec in Hne. rewrite Hne. simpl. now rewrite Hparse.
  - intros Hpersona. unfold start_analysis. rewrite Hlen.
    unfold stry, sbind, lift, sraise, call_analyze_posts. rewrite Horg.
    assert (Hnone : parse_persona (persona_id request) = Return None)
      by (destruct Hpersona as [-> | ->]; reflexivity).
    rewrite Hnone.
    destruct (analyze_posts svc (post_urls request) org_uuid None (service_state w))
      as [[ids|e] s']; reflexivity.
Qed.

End StartAnalysisServiceProperties.

Section StartAnalysisServiceRuns.

Import AnalysisApi.

Lemma start_analysis_calls_service_witness :
  let request := {| post_urls := ["https://www.linkedin.com/posts/example"];
                    org_id := Samples.org1; persona_id := None |} in
  (length (post_urls request) <= 10)%nat /\
  @start_analysis Concrete.ascii_runtime unit echo_service request fresh_world =
    (Return {| status := "started"; count := 1;
               ids := ["https://www.linkedin.com/posts/example"] |},
     {| service_state := tt;
        analyses_started := [(["https://www.linkedin.com/posts/example"], 1%N, None)] |}).
Proof.
  intros request. split; [simpl; lia|].
  apply (@start_analysis_calls_service Concrete.ascii_runtime unit echo_service request
           fresh_world 1%N None ["https://www.linkedin.com/posts/example"] tt);
    [simpl; lia | reflexivity | reflexivity | reflexivity].
Defined.

Lemma start_analysis_service_failure_witness :
  let svc := {| analyze_posts := fun _ _ _ => sraise (PyExc "RuntimeError" "Apify is down") |} in
  let request := {| post_urls := ["https://www.linkedin.com/posts/example"];
                    org_id := Samples.org1; persona_id := None |} in
  (length (post_urls request) <= 10)%nat /\
  @start_analysis Concrete.ascii_runtime unit svc request fresh_world =
    (Raise (HTTPException 500 "Apify is down"),
     {| service_state := tt;
        analyses_started := [(["https://www.linkedin.com/posts/example"], 1%N, None)] |}).
Proof.
  intros svc request. split; [simpl; lia|].
  apply (@start_analysis_service_failure Concrete.ascii_runtime unit svc request
           fresh_world 1%N None (PyExc "RuntimeError" "Apify is down") tt);
    [simpl; lia | reflexivity | reflexivity | reflexivity].
Defined.

Lemma start_analysis_persona_id_witness :
  let request := {| post_urls := ["https://www.linkedin.com/posts/example"];
                    org_id := Samples.org1; persona_id := Some "persona-7" |} in
  (length (post_urls request) <= 10)%nat /\
  @start_analysis Concrete.ascii_runtime unit echo_service request fresh_world =
    (Raise (HTTPException 500 "badly formed hexadecimal UUID string"), fresh_world).
Proof.
  intros request. split; [simpl; lia|].
  apply (proj1 (@start_analysis_persona_id Concrete.ascii_runtime unit echo_service request
                  fresh_world 1%N ltac:(simpl; lia) eq_refl)
           "persona-7" (PyExc "ValueError" "badly formed hexadecimal UUID string"));
    [reflexivity | discriminate | reflexivity].
Defined.

End StartAnalysisServiceRuns.

(** ** More on get_analysis_results *)

Section ResultsCompleteness.

Import AnalysisApi Matching.
Context `{Runtime} `{SqlEngine}.

(** The statement for the posts reads the matching rows. *)
Lemma select_posts_matching (db : Database) (org_uuid : UUID) (limit : Z)
    (status : option string) :
  select_posts db org_uuid limit status =
    sql_limit limit (order_by_desc LinkedInPost.created_at (matching_posts db org_uuid status)).
Proof.
  unfold select_posts, matching_posts. do 2 f_equal.
  destruct status as [s|]; simpl.
  - destruct (str_truthy s).
    + rewrite list_filter_filter. apply list_filter_iff. intros p.
      rewrite bool_decide_eq_true. tauto.
    + apply list_filter_iff. tauto.
  - apply list_filter_iff. tauto.
Qed.

Lemma str_take_spec (n : nat) (s : string) :
  (String.length (str_take n s) <= n)%nat /\
  (exists rest, s = str_take n s ++ rest) /\
  ((String.length s <= n)%nat -> str_take n s = s).
Proof.
  revert s. induction n as [|n IH]; intros [|c s]; simpl.
  - repeat split; [lia | now exists EmptyString].
  - repeat split; [lia | now exists (String c s) | lia].
  - repeat split; [lia | now exists EmptyString].
  - destruct (IH s) as (Hlen & [rest Hrest] & Hshort). repeat split.
    + lia.
    + exists rest. exact (f_equal (String c) Hrest).
    + intros Hs. rewrite Hshort; [reflexivity | lia].
Qed.

(** Every exception of the handler leaves it as HTTP 500, an ill-formed
    organization id with the parser's message: no other status and no other
    exception comes out, and an organization id that is not a UUID is
    never answered with results. *)
Theorem get_analysis_results_errors_are_500 (db : Database) (org_id : string) (limit : Z)
    (status : option string) :
  (forall e, get_analysis_results db org_id limit status = Raise e ->
     exists detail, e = HTTPException 500 detail) /\
  (forall e, uuid_parse org_id = Raise e ->
     get_analysis_results db org_id limit status = Raise (HTTPException 500 (exn_str e))).
Proof.
  unfold get_analysis_results. split.
  - intros e. destruct (uuid_parse org_id) as [u|e0]; simpl.
    + destruct (select_posts db u limit status) as [posts|e1]; simpl; [discriminate|].
      intros [= <-]. now eexists.
    + intros [= <-]. now eexists.
  - intros e ->. reflexivity.
Qed.

(** When the limit is at least the number of matching posts, the results
    are exactly these posts, each once: none is left out and none comes
    twice. An organization without posts gets an empty list, not an error. *)
Theorem results_complete_within_limit (db : Database) (org_id : string) (limit : Z)
    (status : option string) (org_uuid : UUID) :
  uuid_parse org_id = Return org_uuid ->
  0 <= limit ->
  (length (matching_posts db org_uuid status) <= Z.to_nat limit)%nat ->
  exists resp,
    get_analysis_results db org_id limit status = Return resp /\
    total resp = length (matching_posts db org_uuid status) /\
    post <$> results resp ≡ₚ post_view <$> matching_posts db org_uuid status /\
    (matching_posts db org_uuid status = [] -> results resp = []).
Proof.
  intros Hparse Hlimit Hfits. unfold get_analysis_results.
  rewrite Hparse. simpl. rewrite select_posts_matching. unfold sql_limit.
  destruct (Z.ltb_spec limit 0); [lia|]. simpl.
  eexists. split; [reflexivity|]. simpl.
  pose proof (order_by_desc_perm _ LinkedInPost.created_at (matching_posts db org_uuid status))
    as Hperm.
  rewrite take_ge by (rewrite Hperm; exact Hfits).
  split; [now rewrite length_fmap, Hperm|]. split.
  - rewrite <- list_fmap_compose. now rewrite Hperm.
  - intros Hnone. rewrite Hnone in Hperm |- *. apply Permutation_nil_r in Hperm.
    now rewrite Hperm.
Qed.

Lemma length_filter_fmap {A B} (f : A -> B) (P : B -> Prop) `{!forall b, Decision (P b)}
    (l : list A) :
  length (filter P (f <$> l)) = length (filter (fun a => P (f a)) l).
Proof.
  induction l as [|a l IH]; [reflexivity|]. rewrite fmap_cons.
  destruct (decide (P (f a))) as [Ha|Ha].
  - rewrite !filter_cons_True by exact Ha. simpl. now rewrite IH.
  - rewrite !filter_cons_False by exact Ha. exact IH.
Qed.

(** Under each post of the results come all the interaction rows of that
    post, each once: the list is a rearrangement of the post's rows. *)
Theorem interactions_are_complete (db : Database) (org_id : string) (limit : Z)
    (status : option string) (resp : Results) :
  get_analysis_results db org_id limit status = Return resp ->
  Forall (fun r => exists p,
            p ∈ linkedin_post db /\
            post r = post_view p /\
            interactions r ≡ₚ interaction_view <$> interactions_of db p)
         (results resp).
Proof.
  intros Hret.
  apply get_analysis_results_returns in Hret as (org_uuid & posts & _ & Hsel & -> & _).
  apply select_posts_spec in Hsel as (_ & _ & _ & Hposts).
  apply Forall_fmap. eapply Forall_impl; [exact Hposts|].
  intros p (Hin & _). exists p. simpl. split; [exact Hin|]. split; [reflexivity|].
  destruct (select_interactions_spec db (LinkedInPost.id p)) as [_ Hperm].
  cbv zeta in Hperm. now rewrite Hperm.
Qed.

(** The two counters of a result can be recomputed from the interactions
    listed with it: leads_created is the number of listed interactions with
    a lead_id, high_value_count the number classified "high"; neither
    exceeds the number of interactions listed. *)
Theorem counters_match_listed_interactions (db : Database) (org_id : string) (limit : Z)
    (status : option string) (resp : Results) :
  get_analysis_results db org_id limit status = Return resp ->
  Forall (fun r =>
            leads_created r =
              length (filter (fun v => is_Some (iv_lead_id v)) (interactions r)) /\
            high_value_count r =
              length (filter (fun v => iv_classification v = "high") (interactions r)) /\
            (leads_created r <= length (interactions r))%nat /\
            (high_value_count r <= length (interactions r))%nat)
         (results resp).
Proof.
  intros Hret.
  apply get_analysis_results_returns in Hret as (org_uuid & posts & _ & _ & -> & _).
  apply Forall_fmap, Forall_forall. intros p _. simpl.
  assert (Hleads : length (with_lead (select_interactions db (LinkedInPost.id p))) =
                   length (filter (fun v => is_Some (iv_lead_id v))
                             (interaction_view <$> select_interactions db (LinkedInPost.id p)))).
  { rewrite length_filter_fmap. unfold with_lead. f_equal. apply list_filter_iff.
    intros i. simpl. now rewrite fmap_is_Some. }
  assert (Hhigh : length (high_value (select_interactions db (LinkedInPost.id p))) =
                  length (filter (fun v => iv_classification v = "high")
                            (interaction_view <$> select_interactions db (LinkedInPost.id p)))).
  { now rewrite length_filter_fmap. }
  split; [exact Hleads|]. split; [exact Hhigh|].
  rewrite Hleads, Hhigh. split; apply length_filter.
Qed.

(** The content shown for a post is the beginning of its text, at most 200
    characters of it, and the whole of it when it is no longer than that;
    a post without text shows the empty string. *)
Theorem post_content_is_truncated (p : LinkedInPost.t) :
  let shown := pv_content (post_view p) in
  let text := default EmptyString (LinkedInPost.post_content p) in
  (String.length shown <= 200)%nat /\
  (exists rest, text = shown ++ rest) /\
  ((String.length text <= 200)%nat -> shown = text).
Proof.
  intros shown text. subst shown text. unfold post_view. cbn [pv_content].
  destruct (LinkedInPost.post_content p) as [c|]; cbn [default].
  - unfold str_truthy. destruct (String.eqb_spec c EmptyString) as [->|Hc]; cbn [negb].
    + repeat split; [simpl; lia | now exists EmptyString].
    + apply str_take_spec.
  - repeat split; [simpl; lia | now exists EmptyString].
Qed.

End ResultsCompleteness.

Section ResultsCompletenessRuns.

Import AnalysisApi Matching.

Lemma get_analysis_results_errors_are_500_witness :
  @uuid_parse Concrete.ascii_runtime "not-a-uuid" =
    Raise (PyExc "ValueError" "badly formed hexadecimal UUID string") /\
  @get_analysis_results Concrete.ascii_runtime Concrete.merge_sort_engine
    Samples.db "not-a-uuid" 20 None =
    Raise (HTTPException 500 "badly formed hexadecimal UUID string").
Proof.
  split; [reflexivity|].
  exact (proj2 (@get_analysis_results_errors_are_500 Concrete.ascii_runtime
                  Concrete.merge_sort_engine Samples.db "not-a-uuid" 20 None)
           (PyExc "ValueError" "badly formed hexadecimal UUID string") eq_refl).
Defined.

Lemma results_complete_within_limit_witness :
  (length (matching_posts Samples.db 1%N (Some "completed")) <= Z.to_nat 20)%nat /\
  exists resp,
    @get_analysis_results Concrete.ascii_runtime Concrete.merge_sort_engine
      Samples.db Samples.org1 20 (Some "completed") = Return resp /\
    total resp = 1%nat.
Proof.
  assert (Hfits : (length (matching_posts Samples.db 1%N (Some "completed"))
                   <= Z.to_nat 20)%nat) by (vm_compute; lia).
  split; [exact Hfits|].
  destruct (@results_complete_within_limit Concrete.ascii_runtime Concrete.merge_sort_engine
              Samples.db Samples.org1 20 (Some "completed") 1%N eq_refl ltac:(lia) Hfits)
    as (resp & Hret & Htotal & _).
  exists resp. split; [exact Hret | exact Htotal].
Defined.

Lemma interactions_are_complete_witness :
  exists resp,
    @get_analysis_results Concrete.ascii_runtime Concrete.merge_sort_engine
      Samples.db Samples.org1 20 None = Return resp /\
    Forall (fun r => exists p,
              p ∈ linkedin_post Samples.db /\
              post r = @post_view Concrete.ascii_runtime p /\
              interactions r ≡ₚ
                @interaction_view Concrete.ascii_runtime <$> interactions_of Samples.db p)
           (results resp).
Proof.
  eexists. split.
  - vm_compute. reflexivity.
  - apply (@interactions_are_complete Concrete.ascii_runtime Concrete.merge_sort_engine
             Samples.db Samples.org1 20 None).
    vm_compute. reflexivity.
Defined.

Lemma counters_match_listed_interactions_witness :
  exists resp,
    @get_analysis_results Concrete.ascii_runtime Concrete.merge_sort_engine
      Samples.db Samples.org1 20 None = Return resp /\
    Forall (fun r =>
              leads_created r =
                length (filter (fun v => is_Some (iv_lead_id v)) (interactions r)) /\
              high_value_count r =
                length (filter (fun v => iv_classification v = "high") (interactions r)) /\
              (leads_created r <= length (interactions r))%nat /\
              (high_value_count r <= length (interactions r))%nat)
           (results resp).
Proof.
  eexists. split.
  - vm_compute. reflexivity.
  - apply (@counters_match_listed_interactions Concrete.ascii_runtime
             Concrete.merge_sort_engine Samples.db Samples.org1 20 None).
    vm_compute. reflexivity.
Defined.

End ResultsCompletenessRuns.

(** ** More on the campaign repository *)

Section CampaignHistoryProperties.

Import CampaignRepo.

Lemma same_counters_refl (c : Campaign.t) : Campaign.same_counters c c.
Proof. repeat split. Qed.

Lemma same_counters_trans (c1 c2 c3 : Campaign.t) :
  Campaign.same_counters c1 c2 -> Campaign.same_counters c2 c3 ->
  Campaign.same_counters c1 c3.
Proof.
  unfold Campaign.same_counters. intros (? & ? & ? & ? & ? & ?) (? & ? & ? & ? & ? & ?).
  repeat split; congruence.
Qed.

(** One call of [update_status] on a campaign that exists. *)
Lemma update_status_step (campaign_id : UUID) (status : string) (w : World) (c : Campaign.t) :
  campaigns w !! campaign_id = Some c ->
  exists c' n,
    update_status campaign_id status w =
      (Return (Some c'),
       {| campaigns := <[campaign_id := c']> (campaigns w);
          clock := clock w; ticks := (n + S (ticks w))%nat |}) /\
    Campaign.status c' = status /\
    Campaign.same_counters c c' /\
    (forall t, Campaign.started_at c = Some t -> Campaign.started_at c' = Some t) /\
    (status = "active" -> Campaign.started_at c = None ->
       Campaign.started_at c' = Some (clock w (S (ticks w)))) /\
    (status = "active" -> Campaign.paused_at c' = None) /\
    (is_Some (Campaign.completed_at c) -> is_Some (Campaign.completed_at c')) /\
    (is_Some (Campaign.last_resumed_at c) -> is_Some (Campaign.last_resumed_at c')).
Proof.
  intros Hfound.
  set (w1 := {| campaigns := campaigns w; clock := clock w; ticks := S (ticks w) |}).
  set (c1 := Campaign.set_updated_at (Some (clock w (ticks w)))
               (Campaign.set_status status c)).
  destruct (set_timestamps_spec status c1 w1)
    as (c' & n & Hrun & Hstatus & _ & Hsame & Hactive & Hpaused & Hcompleted & Hother).
  exists c', n. split.
  { now rewrite (update_status_found campaign_id status w c c' _ Hfound Hrun). }
  split; [now rewrite Hstatus|].
  split; [apply same_counters_trans with c1; [repeat split | exact Hsame]|].
  destruct (String.eqb_spec status "active") as [Ha|Ha].
  { destruct (Hactive Ha) as (Hs & Hp & Hr & Hc). subst c1 w1. simpl in Hs, Hr, Hc.
    repeat split.
    - intros t Ht. now rewrite Hs, Ht.
    - intros _ Hnone. now rewrite Hs, Hnone.
    - intros _. exact Hp.
    - now rewrite Hc.
    - intros _. rewrite Hr. now eexists. }
  destruct (String.eqb_spec status "paused") as [Hp|Hp].
  { destruct (Hpaused Hp) as (Hs & _ & Hr & Hc). subst c1. simpl in Hs, Hr, Hc.
    repeat split; try congruence. }
  destruct (String.eqb_spec status "completed") as [Hc|Hc].
  { destruct (Hcompleted Hc) as (Hs & _ & Hr & Hc'). subst c1. simpl in Hs, Hr.
    repeat split; try congruence. intros _. rewrite Hc'. now eexists. }
  rewrite (Hother Ha Hp Hc). subst c1. simpl. repeat split; try congruence.
Qed.

(** What a sequence of status updates keeps, by induction on the sequence. *)
Lemma update_statuses_invariant (campaign_id : UUID) (statuses : list string)
    (w : World) (c : Campaign.t) :
  campaigns w !! campaign_id = Some c ->
  let w' := update_statuses campaign_id statuses w in
  (exists c',
     campaigns w' !! campaign_id = Some c' /\
     Campaign.same_counters c c' /\
     (forall t, Campaign.started_at c = Some t -> Campaign.started_at c' = Some t) /\
     (is_Some (Campaign.completed_at c) -> is_Some (Campaign.completed_at c')) /\
     (is_Some (Campaign.last_resumed_at c) -> is_Some (Campaign.last_resumed_at c'))) /\
  (forall other, other <> campaign_id -> campaigns w' !! other = campaigns w !! other).
Proof.
  revert w c. induction statuses as [|status statuses IH]; intros w c Hfound; simpl.
  - split; [|reflexivity]. exists c.
    split; [exact Hfound|]. split; [apply same_counters_refl|]. auto.
  - destruct (update_status_step campaign_id status w c Hfound)
      as (c1 & n & Hrun & _ & Hsame & Hstarted & _ & _ & Hcompleted & Hresumed).
    rewrite Hrun. cbn [snd].
    set (w1 := {| campaigns := <[campaign_id := c1]> (campaigns w);
                  clock := clock w; ticks := (n + S (ticks w))%nat |}).
    assert (Hfound1 : campaigns w1 !! campaign_id = Some c1) by apply lookup_insert_eq.
    destruct (IH w1 c1 Hfound1)
      as [(c' & Hc' & Hsame' & Hstarted' & Hcompleted' & Hresumed') Hothers].
    split.
    + exists c'. split; [exact Hc'|].
      split; [now apply same_counters_trans with c1|]. repeat split; auto.
    + intros other Hother. rewrite (Hothers other Hother). subst w1. simpl.
      now apply lookup_insert_ne.
Qed.

(** However a campaign's status is set and set again, its history is
    kept: a start time once set is never changed, a campaign once
    completed or once resumed never loses that timestamp (a completed
    campaign can be made active again, and keeps its completed_at), the
    counters are not touched, and no other campaign is. *)
Theorem update_statuses_keep_history (campaign_id : UUID) (statuses : list string)
    (w : World) (c : Campaign.t) :
  campaigns w !! campaign_id = Some c ->
  let w' := update_statuses campaign_id statuses w in
  (exists c',
     campaigns w' !! campaign_id = Some c' /\
     Campaign.same_counters c c' /\
     (forall t, Campaign.started_at c = Some t -> Campaign.started_at c' = Some t) /\
     (is_Some (Campaign.completed_at c) -> is_Some (Campaign.completed_at c')) /\
     (is_Some (Campaign.last_resumed_at c) -> is_Some (Campaign.last_resumed_at c'))) /\
  (forall other, other <> campaign_id -> campaigns w' !! other = campaigns w !! other).
Proof. exact (update_statuses_invariant campaign_id statuses w c). Qed.

(** The start time of a campaign is the time of its first activation:
    whatever statuses follow, pauses and new activations included,
    started_at stays the reading of the clock taken then. *)
Theorem started_at_is_first_activation (campaign_id : UUID) (rest : list string)
    (w : World) (c : Campaign.t) :
  campaigns w !! campaign_id = Some c ->
  Campaign.started_at c = None ->
  exists c',
    campaigns (update_statuses campaign_id ("active" :: rest) w) !! campaign_id = Some c' /\
    Campaign.started_at c' = Some (clock w (S (ticks w))).
Proof.
  intros Hfound Hnone. simpl.
  destruct (update_status_step campaign_id "active" w c Hfound)
    as (c1 & n & Hrun & _ & _ & _ & Hfirst & _).
  rewrite Hrun. cbn [snd].
  set (w1 := {| campaigns := <[campaign_id := c1]> (campaigns w);
                clock := clock w; ticks := (n + S (ticks w))%nat |}).
  assert (Hfound1 : campaigns w1 !! campaign_id = Some c1) by apply lookup_insert_eq.
  destruct (update_statuses_invariant campaign_id rest w1 c1 Hfound1)
    as [(c' & Hc' & _ & Hstarted & _) _].
  exists c'. split; [exact Hc'|]. apply Hstarted. now apply Hfirst.
Qed.

End CampaignHistoryProperties.

Section CampaignCountersProperties.

Import CampaignRepo.

(** One call of [increment_leads_count] on a campaign that exists. *)
Lemma increment_leads_count_found (campaign_id : UUID) (count : Z) (w : World)
    (c : Campaign.t) :
  campaigns w !! campaign_id = Some c ->
  increment_leads_count campaign_id count w =
    (Return true,
     {| campaigns :=
          <[campaign_id :=
              Campaign.set_updated_at (Some (clock w (ticks w)))
                (Campaign.set_leads_count (Campaign.leads_count c + count) c)]>
            (campaigns w);
        clock := clock w; ticks := S (ticks w) |}).
Proof.
  intros Hfound. unfold increment_leads_count, sbind, get. cbv beta iota.
  rewrite Hfound. reflexivity.
Qed.

(** [increment_leads_count] answers [False] and changes nothing when there
    is no such campaign. Otherwise it answers [True], adds [count] to
    leads_count, negative counts included, stamps updated_at, and leaves
    the status, the four timestamps, the other counters and the other
    campaigns as they were. *)
Theorem increment_leads_count_spec (campaign_id : UUID) (count : Z) (w : World) :
  let result := (increment_leads_count campaign_id count w).1 in
  let w' := (increment_leads_count campaign_id count w).2 in
  match campaigns w !! campaign_id with
  | None => result = Return false /\ w' = w
  | Some c =>
      result = Return true /\
      (forall other, other <> campaign_id -> campaigns w' !! other = campaigns w !! other) /\
      exists c',
        campaigns w' !! campaign_id = Some c' /\
        Campaign.leads_count c' = Campaign.leads_count c + count /\
        Campaign.updated_at c' = Some (clock w (ticks w)) /\
        Campaign.status c' = Campaign.status c /\
        Campaign.started_at c' = Campaign.started_at c /\
        Campaign.paused_at c' = Campaign.paused_at c /\
        Campaign.last_resumed_at c' = Campaign.last_resumed_at c /\
        Campaign.completed_at c' = Campaign.completed_at c /\
        Campaign.org_id c' = Campaign.org_id c /\
        Campaign.qualified_leads_count c' = Campaign.qualified_leads_count c /\
        Campaign.contacted_count c' = Campaign.contacted_count c /\
        Campaign.replied_count c' = Campaign.replied_count c
  end.
Proof.
  intros result w'. subst result w'.
  destruct (campaigns w !! campaign_id) as [c|] eqn:Hfound.
  - rewrite (increment_leads_count_found campaign_id count w c Hfound). cbn [fst snd campaigns].
    split; [reflexivity|]. split.
    + intros other Hother. now apply lookup_insert_ne.
    + eexists. split; [apply lookup_insert_eq|]. repeat split.
  - unfold increment_leads_count, sbind, get. cbv beta iota. now rewrite Hfound.
Qed.

(** Increments add up: after incrementing by [a] and then by [b] the
    campaign counts [a + b] more leads, and [get_stats] reports that count. *)
Theorem increments_add_up (campaign_id : UUID) (a b : Z) (w : World) (c : Campaign.t) :
  campaigns w !! campaign_id = Some c ->
  let w1 := (increment_leads_count campaign_id a w).2 in
  let w2 := (increment_leads_count campaign_id b w1).2 in
  exists stats,
    get_stats campaign_id w2 = (Return (Some stats), w2) /\
    stats_leads_count stats = Campaign.leads_count c + a + b /\
    stats_status stats = Campaign.status c.
Proof.
  intros Hfound w1 w2. subst w1 w2.
  rewrite (increment_leads_count_found campaign_id a w c Hfound). cbn [snd].
  erewrite increment_leads_count_found by apply lookup_insert_eq. cbn [snd].
  unfold get_stats, sbind, get. cbv beta iota. cbn [campaigns].
  rewrite lookup_insert_eq. eexists. split; [reflexivity|]. simpl. split; [lia | reflexivity].
Qed.

(** [get_stats] after [update_status] reports the status just set, with
    the counters the campaign had; for a campaign that does not exist both
    answer nothing and change nothing. *)
Theorem get_stats_after_update_status (campaign_id : UUID) (status : string) (w : World) :
  let w' := (update_status campaign_id status w).2 in
  match campaigns w !! campaign_id with
  | None => w' = w /\ get_stats campaign_id w' = (Return None, w')
  | Some c =>
      exists stats,
        get_stats campaign_id w' = (Return (Some stats), w') /\
        stats_campaign_id stats = campaign_id /\
        stats_status stats = status /\
        stats_leads_count stats = Campaign.leads_count c /\
        stats_qualified_leads_count stats = Campaign.qualified_leads_count c /\
        stats_contacted_count stats = Campaign.contacted_count c /\
        stats_replied_count stats = Campaign.replied_count c /\
        (status = "completed" -> is_Some (stats_completed_at stats)) /\
        (status = "active" -> is_Some (stats_started_at stats))
  end.
Proof.
  intros w'. subst w'.
  destruct (campaigns w !! campaign_id) as [c|] eqn:Hfound.
  - destruct (set_timestamps_spec status
                (Campaign.set_updated_at (Some (clock w (ticks w)))
                   (Campaign.set_status status c))
                {| campaigns := campaigns w; clock := clock w; ticks := S (ticks w) |})
      as (c' & n & Hrun & Hstatus & _ & Hsame & Hactive & _ & Hcompleted & _).
    rewrite (update_status_found campaign_id status w c c' _ Hfound Hrun). cbn [snd].
    unfold get_stats, sbind, get. cbv beta iota. cbn [campaigns].
    rewrite lookup_insert_eq. eexists. split; [reflexivity|]. simpl.
    destruct Hsame as (_ & _ & Hl & Hq & Hc & Hr). simpl in Hl, Hq, Hc, Hr.
    repeat split; try assumption.
    + intros Hs. destruct (Hcompleted Hs) as (_ & _ & _ & Hdone). rewrite Hdone. now eexists.
    + intros Hs. destruct (Hactive Hs) as (Hstarted & _). rewrite Hstarted. simpl.
      destruct (Campaign.started_at c); now eexists.
  - rewrite (update_status_missing campaign_id status w Hfound). cbn [snd].
    split; [reflexivity|]. unfold get_stats, sbind, get. cbv beta iota. now rewrite Hfound.
Qed.

(** The rows [get_active] answers. *)
Lemma get_active_rows (org_id : UUID) (w : World) :
  exists rows,
    get_active org_id w = (Return rows, w) /\
    NoDup rows.*1 /\
    forall campaign_id c,
      (campaign_id, c) ∈ rows <->
      campaigns w !! campaign_id = Some c /\
      Campaign.org_id c = org_id /\ Campaign.status c = "active".
Proof.
  eexists. split; [reflexivity|]. split.
  - apply NoDup_fmap_fst.
    + intros k c1 c2 H1 H2.
      apply list_elem_of_filter in H1 as [_ H1]. apply list_elem_of_filter in H2 as [_ H2].
      apply elem_of_map_to_list in H1, H2. congruence.
    + apply NoDup_filter, NoDup_map_to_list.
  - intros campaign_id c. rewrite list_elem_of_filter, elem_of_map_to_list. simpl. tauto.
Qed.

(** [get_active] answers the campaigns of the organization whose status
    is "active", all of them and each once, and changes nothing. *)
Theorem get_active_spec (org_id : UUID) (w : World) :
  exists rows,
    get_active org_id w = (Return rows, w) /\
    NoDup rows.*1 /\
    forall campaign_id c,
      (campaign_id, c) ∈ rows <->
      campaigns w !! campaign_id = Some c /\
      Campaign.org_id c = org_id /\ Campaign.status c = "active".
Proof. exact (get_active_rows org_id w). Qed.

(** A campaign set to "active" is among the active campaigns of its
    organization afterwards; set to any other status, it is among the
    active campaigns of none. *)
Theorem get_active_after_update_status (campaign_id : UUID) (status : string)
    (w : World) (c : Campaign.t) :
  campaigns w !! campaign_id = Some c ->
  let w' := (update_status campaign_id status w).2 in
  (status = "active" ->
     exists rows c', get_active (Campaign.org_id c) w' = (Return rows, w') /\
                     (campaign_id, c') ∈ rows) /\
  (status <> "active" ->
     forall org_id rows c', get_active org_id w' = (Return rows, w') ->
                            (campaign_id, c') ∉ rows).
Proof.
  intros Hfound w'. subst w'.
  destruct (update_status_step campaign_id status w c Hfound)
    as (c1 & n & Hrun & Hstatus & Hsame & _).
  rewrite Hrun. cbn [snd].
  set (w1 := {| campaigns := <[campaign_id := c1]> (campaigns w);
                clock := clock w; ticks := (n + S (ticks w))%nat |}).
  assert (Hfound1 : campaigns w1 !! campaign_id = Some c1) by apply lookup_insert_eq.
  split.
  - intros Hactive. destruct (get_active_rows (Campaign.org_id c) w1) as (rows & Hrows & _ & Hin).
    exists rows, c1. split; [exact Hrows|]. apply Hin.
    split; [exact Hfound1|]. split; [apply Hsame | congruence].
  - intros Hother org_id rows c' Hrows Hin.
    destruct (get_active_rows org_id w1) as (rows' & Hrows' & _ & Hin').
    rewrite Hrows in Hrows'. injection Hrows' as <-.
    apply Hin' in Hin as (Hc' & _ & Hactive). congruence.
Qed.

End CampaignCountersProperties.

Section CampaignRuns.

Import CampaignRepo.

Lemma update_statuses_keep_history_witness :
  campaigns world !! 2%N = Some running /\
  exists c',
    campaigns (update_statuses 2%N ["paused"; "completed"; "active"] world) !! 2%N = Some c' /\
    Campaign.started_at c' = Some 500 /\
    Campaign.leads_count c' = 12.
Proof.
  assert (Hrow : campaigns world !! 2%N = Some running) by reflexivity.
  split; [exact Hrow|].
  destruct (update_statuses_keep_history 2%N ["paused"; "completed"; "active"] world running Hrow)
    as [(c' & Hc' & Hsame & Hstarted & _) _].
  exists c'. split; [exact Hc'|]. split; [now apply Hstarted | apply Hsame].
Defined.

Lemma started_at_is_first_activation_witness :
  campaigns world !! 1%N = Some draft /\
  exists c',
    campaigns (update_statuses 1%N ["active"; "paused"; "active"] world) !! 1%N = Some c' /\
    Campaign.started_at c' = Some 1001.
Proof.
  assert (Hrow : campaigns world !! 1%N = Some draft) by reflexivity.
  split; [exact Hrow|].
  exact (started_at_is_first_activation 1%N ["paused"; "active"] world draft Hrow eq_refl).
Defined.

Lemma increment_leads_count_spec_witness :
  campaigns world !! 3%N = None /\
  increment_leads_count 3%N 1 world = (Return false, world).
Proof.
  assert (Hrow : campaigns world !! 3%N = None) by reflexivity.
  split; [exact Hrow|].
  pose proof (increment_leads_count_spec 3%N 1 world) as Hspec.
  cbv zeta in Hspec. rewrite Hrow in Hspec. destruct Hspec as [Hresult Hworld].
  destruct (increment_leads_count 3%N 1 world) as [r w']. simpl in *. congruence.
Defined.

Lemma increments_add_up_witness :
  campaigns world !! 2%N = Some running /\
  exists stats,
    (get_stats 2%N
       (increment_leads_count 2%N (-2) (increment_leads_count 2%N 5 world).2).2).1
      = Return (Some stats) /\
    stats_leads_count stats = 15.
Proof.
  assert (Hrow : campaigns world !! 2%N = Some running) by reflexivity.
  split; [exact Hrow|].
  destruct (increments_add_up 2%N 5 (-2) world running Hrow) as (stats & Hstats & Hcount & _).
  exists stats. split; [now rewrite Hstats | exact Hcount].
Defined.

Lemma get_stats_after_update_status_witness :
  campaigns world !! 1%N = Some draft /\
  exists stats,
    (get_stats 1%N (update_status 1%N "completed" world).2).1 = Return (Some stats) /\
    stats_status stats = "completed" /\
    is_Some (stats_completed_at stats).
Proof.
  assert (Hrow : campaigns world !! 1%N = Some draft) by reflexivity.
  split; [exact Hrow|].
  pose proof (get_stats_after_update_status 1%N "completed" world) as Hstats.
  cbv zeta in Hstats. rewrite Hrow in Hstats.
  destruct Hstats as (stats & Hget & _ & Hstatus & _ & _ & _ & _ & Hcompleted & _).
  exists stats. split; [now rewrite Hget|]. split; [exact Hstatus | now apply Hcompleted].
Defined.

Lemma get_active_after_update_status_witness :
  campaigns world !! 1%N = Some draft /\
  exists rows c',
    get_active 1%N (update_status 1%N "active" world).2 =
      (Return rows, (update_status 1%N "active" world).2) /\
    (1%N, c') ∈ rows.
Proof.
  assert (Hrow : campaigns world !! 1%N = Some draft) by reflexivity.
  split; [exact Hrow|].
  exact (proj1 (get_active_after_update_status 1%N "active" world draft Hrow) eq_refl).
Defined.

End CampaignRuns.

(** ** The user endpoints *)

Section UserSettingsProperties.

Import UsersApi.

(** One call of [update_user_settings]: the row written and the answer. *)
Lemma update_user_settings_run (settings : gmap string pyval) (u : User.t) (w : World) :
  exists u',
    update_user_settings settings u w =
      (Return (get_user_settings u'),
       {| users := <[User.id u := u']> (users w); members := members w;
          activities := activities w; clock := clock w; ticks := S (ticks w) |}) /\
    User.language_preference u' =
      default (User.language_preference u) (settings !! "language_preference") /\
    User.timezone u' = default (User.timezone u) (settings !! "timezone") /\
    User.email_preferences u' =
      default (User.email_preferences u) (settings !! "email_preferences") /\
    User.updated_at u' = Some (clock w (ticks w)) /\
    User.same_identity u u'.
Proof.
  unfold update_user_settings, sbind, utcnow, add_commit, refresh, sret. cbv beta iota zeta.
  cbn [users clock ticks members activities].
  assert (Hid : forall u0,
    User.id (match settings !! "email_preferences" with
             | Some v => User.set_email_preferences v u0 | None => u0 end) = User.id u0)
    by (intros u0; now destruct (settings !! "email_preferences")).
  destruct (settings !! "language_preference") as [l|];
    destruct (settings !! "timezone") as [t|];
    destruct (settings !! "email_preferences") as [e|];
    cbn [User.id User.set_updated_at User.set_email_preferences User.set_timezone
         User.set_language_preference];
    rewrite lookup_insert_eq; eexists; (split; [reflexivity|]); repeat split.
Qed.

(** A settings request changes the settings it names and no other: each of
    language_preference, timezone and email_preferences takes the value
    sent, of whatever kind, or keeps its own when the key is absent;
    updated_at is stamped; the identity of the user and every other user
    stay as they were; and the answer is what [get_user_settings] answers
    for the row just written. *)
Theorem update_user_settings_spec (settings : gmap string pyval) (u : User.t) (w : World) :
  let result := (update_user_settings settings u w).1 in
  let w' := (update_user_settings settings u w).2 in
  exists u',
    users w' !! User.id u = Some u' /\
    result = Return (get_user_settings u') /\
    User.language_preference u' =
      default (User.language_preference u) (settings !! "language_preference") /\
    User.timezone u' = default (User.timezone u) (settings !! "timezone") /\
    User.email_preferences u' =
      default (User.email_preferences u) (settings !! "email_preferences") /\
    User.updated_at u' = Some (clock w (ticks w)) /\
    User.same_identity u u' /\
    (forall other, other <> User.id u -> users w' !! other = users w !! other) /\
    members w' = members w /\ activities w' = activities w.
Proof.
  intros result w'. subst result w'.
  destruct (update_user_settings_run settings u w)
    as (u' & Hrun & Hl & Ht & He & Hu & Hsame).
  rewrite Hrun. cbn [fst snd users members activities].
  exists u'. split; [apply lookup_insert_eq|]. repeat split; try assumption; try apply Hsame.
  intros other Hother. now apply lookup_insert_ne.
Qed.

(** Keys other than the three settings are ignored: two requests that
    agree on language_preference, timezone and email_preferences do the
    same. *)
Theorem update_user_settings_ignores_other_keys (s1 s2 : gmap string pyval)
    (u : User.t) (w : World) :
  s1 !! "language_preference" = s2 !! "language_preference" ->
  s1 !! "timezone" = s2 !! "timezone" ->
  s1 !! "email_preferences" = s2 !! "email_preferences" ->
  update_user_settings s1 u w = update_user_settings s2 u w.
Proof.
  intros Hl Ht He. unfold update_user_settings. now rewrite Hl, Ht, He.
Qed.

(** Sending the same settings again changes nothing but updated_at: the
    answer is the same and the row differs from the one written first by
    its stamp only. *)
Theorem update_user_settings_again (settings : gmap string pyval) (u : User.t) (w : World) :
  let first := update_user_settings settings u w in
  exists u1,
    users first.2 !! User.id u = Some u1 /\
    let second := update_user_settings settings u1 first.2 in
    second.1 = first.1 /\
    users second.2 !! User.id u =
      Some (User.set_updated_at (Some (clock w (S (ticks w)))) u1).
Proof.
  intros first. subst first.
  destruct (update_user_settings_run settings u w)
    as (u1 & Hrun & Hl & Ht & He & Hu & Hsame).
  rewrite Hrun. cbn [fst snd users]. exists u1. split; [apply lookup_insert_eq|].
  cbv zeta.
  set (w1 := {| users := <[User.id u := u1]> (users w); members := members w;
                activities := activities w; clock := clock w; ticks := S (ticks w) |}).
  destruct (update_user_settings_run settings u1 w1)
    as (u2 & Hrun2 & Hl2 & Ht2 & He2 & Hu2 & Hsame2).
  rewrite Hrun2. cbn [fst snd users].
  assert (Hid : User.id u1 = User.id u) by apply Hsame.
  assert (Hu2' : u2 = User.set_updated_at (Some (clock w (S (ticks w)))) u1).
  { destruct Hsame2 as (H1 & H2 & H3 & H4 & H5 & H6 & H7 & H8).
    subst w1. cbn [clock ticks] in Hu2.
    assert (Hl2' : User.language_preference u2 = User.language_preference u1).
    { rewrite Hl2, Hl. now destruct (settings !! "language_preference"). }
    assert (Ht2' : User.timezone u2 = User.timezone u1).
    { rewrite Ht2, Ht. now destruct (settings !! "timezone"). }
    assert (He2' : User.email_preferences u2 = User.email_preferences u1).
    { rewrite He2, He. now destruct (settings !! "email_preferences"). }
    clear Hrun Hrun2 Hsame Hid Hl Ht He Hu Hl2 Ht2 He2.
    destruct u1, u2. simpl in *. subst. reflexivity. }
  split.
  - f_equal. rewrite Hu2'. reflexivity.
  - rewrite Hid, Hu2'. apply lookup_insert_eq.
Qed.

(** The settings answer has the three settings and nothing else, and its
    email_preferences is never an empty value other than the empty dict:
    preferences that are unset, [null], false, zero or an empty string or
    list are all answered as [{}]. *)
Theorem settings_answer_shape (u : User.t) :
  (forall key, is_Some (AIAnalysisService.field_of (get_user_settings u) key) <->
               key = "language_preference" \/ key = "timezone" \/ key = "email_preferences") /\
  AIAnalysisService.field_of (get_user_settings u) "language_preference" =
    Some (User.language_preference u) /\
  AIAnalysisService.field_of (get_user_settings u) "timezone" = Some (User.timezone u) /\
  exists shown,
    AIAnalysisService.field_of (get_user_settings u) "email_preferences" = Some shown /\
    (truthy (User.email_preferences u) = true -> shown = User.email_preferences u) /\
    (truthy (User.email_preferences u) = false -> shown = PyDict ∅).
Proof.
  unfold get_user_settings. cbn [AIAnalysisService.field_of]. split; [|split; [|split]].
  - intros key. rewrite !lookup_insert_is_Some, lookup_singleton_is_Some.
    split.
    + intros [-> | [_ [-> | [_ ->]]]]; auto.
    + intros [-> | [-> | ->]]; [left | right; split; [discriminate | left]
                                | right; split; [discriminate|right; split; [discriminate|]]];
        reflexivity.
  - reflexivity.
  - reflexivity.
  - eexists. split; [reflexivity|]. unfold or_empty_dict.
    destruct (truthy (User.email_preferences u)); split; congruence.
Qed.

End UserSettingsProperties.

Section UserProfileProperties.

Import UsersApi.
Context `{Runtime} `{SqlEngine}.

(** The profile names a role exactly when the user has a current
    organization and a membership in it, and then it is the role of such a
    membership; each of the eight other fields is the user's own, and
    nothing is written. *)
Theorem profile_role_is_a_membership (u : User.t) (w : World) :
  exists resp,
    get_current_user_profile u w = (Return resp, w) /\
    ur_id resp = User.id u /\ ur_email resp = User.email u /\
    ur_current_org_id resp = User.current_org_id u /\
    ur_full_name resp = User.full_name u /\
    ur_avatar_url resp = User.avatar_url u /\
    ur_is_verified resp = User.is_verified u /\
    ur_created_at resp = User.created_at u /\
    ur_last_login_at resp = User.last_login_at u /\
    (forall r, ur_role resp = Some r ->
       exists org m, User.current_org_id u = Some org /\ m ∈ members w /\
                     OrganizationMember.user_id m = User.id u /\
                     OrganizationMember.org_id m = org /\
                     OrganizationMember.role m = r) /\
    (ur_role resp = None <->
       User.current_org_id u = None \/
       forall m, m ∈ members w ->
         ~ (OrganizationMember.user_id m = User.id u /\
            Some (OrganizationMember.org_id m) = User.current_org_id u)).
Proof.
  unfold get_current_user_profile, sbind, first_membership, sret. cbv beta iota.
  destruct (User.current_org_id u) as [org|] eqn:Horg; cbv beta iota.
  - destruct (filter _ (members w)) as [|m rest] eqn:Hrows; cbn [head].
    + eexists. split; [reflexivity|]. cbn. repeat split; try discriminate.
      * intros _. right. intros m Hm [Huser [= Hmorg]].
        assert (Hin : m ∈ filter (fun m => OrganizationMember.user_id m = User.id u /\
                                           OrganizationMember.org_id m = org) (members w))
          by (apply list_elem_of_filter; auto).
        rewrite Hrows in Hin. inversion Hin.
    + assert (Hm : m ∈ filter (fun m => OrganizationMember.user_id m = User.id u /\
                                        OrganizationMember.org_id m = org) (members w))
        by (rewrite Hrows; left).
      apply list_elem_of_filter in Hm as [[Huser Hmorg] Hm].
      eexists. split; [reflexivity|]. cbn. repeat split; try discriminate.
      * intros r [= <-]. now exists org, m.
      * intros [Hno | Hno]; [discriminate|]. exfalso. apply (Hno m Hm). split; congruence.
  - eexists. split; [reflexivity|]. cbn. repeat split; try discriminate. intros _. now left.
Qed.

(** What the statement for the activities selects. *)
Lemma select_activities_spec (u : User.t) (limit : Z) (w w' : World) (rows : list ActivityLog.t) :
  select_activities u limit w = (Return rows, w') ->
  w' = w /\
  (length rows <= Z.to_nat limit)%nat /\
  StronglySorted (fun a b => ActivityLog.created_at b <= ActivityLog.created_at a) rows /\
  Forall (fun a => a ∈ activities w /\ ActivityLog.actor_id a = Some (User.id u)) rows.
Proof.
  unfold select_activities, AnalysisApi.sql_limit.
  destruct (Z.ltb_spec limit 0); [discriminate|]. intros [= <- <-].
  split; [reflexivity|]. split; [rewrite length_take; lia|]. split.
  - apply StronglySorted_take, order_by_desc_sorted.
  - apply Forall_take. rewrite order_by_desc_perm. apply Forall_forall.
    intros a Ha. apply list_elem_of_filter in Ha as [Hactor Ha]. now split.
Qed.

(** The activity page lists log entries of the current user only, newest
    first, at most [limit] of them, 50 when no limit is given; its total
    is the number of entries on the page, not the number the user has;
    nothing is written. *)
Theorem activity_page_spec (u : User.t) (limit : option Z) (w w' : World) (page : ActivityPage) :
  get_user_activity u limit w = (Return page, w') ->
  w' = w /\
  page_total page = length (items page) /\
  (page_total page <= Z.to_nat (default 50%Z limit))%nat /\
  exists rows,
    items page = activity_view <$> rows /\
    StronglySorted (fun a b => ActivityLog.created_at b <= ActivityLog.created_at a) rows /\
    Forall (fun a => a ∈ activities w /\ ActivityLog.actor_id a = Some (User.id u)) rows.
Proof.
  unfold get_user_activity, sbind, sret.
  destruct (select_activities u (default 50%Z limit) w) as [[rows|e] w1] eqn:Hsel;
    [|discriminate].
  intros [= <- <-]. apply select_activities_spec in Hsel as (-> & Hlen & Hsorted & Hrows).
  cbn. split; [reflexivity|]. split; [now rewrite length_fmap|]. split; [exact Hlen|].
  exists rows. auto.
Qed.

(** When the user has no more entries than the limit, the page has them all. *)
Theorem activity_page_complete (u : User.t) (limit : option Z) (w : World) :
  let mine := filter (fun a => ActivityLog.actor_id a = Some (User.id u)) (activities w) in
  0 <= default 50%Z limit ->
  (length mine <= Z.to_nat (default 50%Z limit))%nat ->
  exists page,
    get_user_activity u limit w = (Return page, w) /\
    page_total page = length mine /\
    items page ≡ₚ activity_view <$> mine.
Proof.
  intros mine Hlimit Hfits. unfold get_user_activity, sbind, sret, select_activities.
  unfold AnalysisApi.sql_limit. destruct (Z.ltb_spec (default 50%Z limit) 0); [lia|].
  fold mine. pose proof (order_by_desc_perm _ ActivityLog.created_at mine) as Hperm.
  rewrite take_ge by (rewrite Hperm; exact Hfits).
  eexists. split; [reflexivity|]. cbn. split; [now rewrite Hperm | now rewrite Hperm].
Qed.

End UserProfileProperties.

Section UserRuns.

Import UsersApi.

Lemma update_user_settings_spec_witness :
  exists u',
    users (update_user_settings {[ "timezone" := PyStr "Europe/Paris" ]} ada world).2 !! 1%N
      = Some u' /\
    User.timezone u' = PyStr "Europe/Paris" /\
    User.language_preference u' = PyStr "en".
Proof.
  destruct (update_user_settings_spec {[ "timezone" := PyStr "Europe/Paris" ]} ada world)
    as (u' & Hrow & _ & Hl & Ht & _).
  exists u'. split; [exact Hrow|]. split; [exact Ht | exact Hl].
Defined.

Lemma update_user_settings_ignores_other_keys_witness :
  update_user_settings {[ "theme" := PyStr "dark" ]} ada world =
  update_user_settings ∅ ada world.
Proof.
  apply update_user_settings_ignores_other_keys; reflexivity.
Defined.

Lemma update_user_settings_again_witness :
  exists u1,
    users (update_user_settings {[ "timezone" := PyStr "Europe/Paris" ]} ada world).2 !! 1%N
      = Some u1 /\
    (update_user_settings {[ "timezone" := PyStr "Europe/Paris" ]} u1
       (update_user_settings {[ "timezone" := PyStr "Europe/Paris" ]} ada world).2).1 =
    (update_user_settings {[ "timezone" := PyStr "Europe/Paris" ]} ada world).1.
Proof.
  destruct (update_user_settings_again {[ "timezone" := PyStr "Europe/Paris" ]} ada world)
    as (u1 & Hrow & Hsame & _).
  exists u1. split; [exact Hrow | exact Hsame].
Defined.

Lemma settings_answer_shape_witness :
  truthy (User.email_preferences ada) = false /\
  AIAnalysisService.field_of (get_user_settings ada) "email_preferences" = Some (PyDict ∅).
Proof.
  split; [reflexivity|].
  destruct (settings_answer_shape ada) as (_ & _ & _ & shown & Hshown & _ & Hempty).
  rewrite Hshown. f_equal. apply Hempty. reflexivity.
Defined.

Lemma profile_role_is_a_membership_witness :
  exists resp,
    get_current_user_profile ada world = (Return resp, world) /\
    ur_id resp = 1%N /\
    ur_full_name resp = Some "Ada" /\
    ur_is_verified resp = true /\
    ur_created_at resp = 10 /\
    ur_last_login_at resp = None /\
    ur_role resp = Some "admin".
Proof.
  destruct (profile_role_is_a_membership ada world)
    as (resp & Hret & Hid & _ & _ & Hname & _ & Hverified & Hcreated & Hlogin & Hrole & Hnone).
  exists resp. split; [exact Hret|]. split; [exact Hid|]. split; [exact Hname|].
  split; [exact Hverified|]. split; [exact Hcreated|]. split; [exact Hlogin|].
  destruct (ur_role resp) as [r|] eqn:Hr.
  - destruct (Hrole r eq_refl) as (org & m & Horg & Hm & _ & _ & Hmrole).
    apply list_elem_of_singleton in Hm. subst m. now rewrite <- Hmrole.
  - exfalso. destruct (proj1 Hnone eq_refl) as [Hno | Hno]; [discriminate|].
    apply (Hno {| OrganizationMember.user_id := 1%N; OrganizationMember.org_id := 5%N;
                  OrganizationMember.role := "admin" |}).
    + apply list_elem_of_singleton. reflexivity.
    + split; reflexivity.
Defined.

Lemma activity_page_spec_witness :
  exists page,
    @get_user_activity Concrete.ascii_runtime Concrete.merge_sort_engine ada (Some 1) world
      = (Return page, world) /\
    page_total page = 1%nat.
Proof.
  eexists. split; [vm_compute; reflexivity|].
  destruct (@activity_page_spec Concrete.ascii_runtime Concrete.merge_sort_engine
              ada (Some 1) world world _ ltac:(vm_compute; reflexivity))
    as (_ & Htotal & _).
  rewrite Htotal. reflexivity.
Defined.

Lemma activity_page_complete_witness :
  (length (filter (fun a => ActivityLog.actor_id a = Some (User.id ada)) (activities world))
     <= Z.to_nat 50)%nat /\
  exists page,
    @get_user_activity Concrete.ascii_runtime Concrete.merge_sort_engine ada None world
      = (Return page, world) /\
    page_total page = 2%nat.
Proof.
  assert (Hfits : (length (filter (fun a => ActivityLog.actor_id a = Some (User.id ada))
                             (activities world)) <= Z.to_nat 50)%nat)
    by (vm_compute; lia).
  split; [exact Hfits|].
  destruct (@activity_page_complete Concrete.ascii_runtime Concrete.merge_sort_engine
              ada None world ltac:(simpl; lia) Hfits) as (page & Hret & Htotal & _).
  exists page. split; [exact Hret | exact Htotal].
Defined.

End UserRuns.
